(** * reboundx/extras.py: the ctypes binding of REBOUNDx, as functions over
    explicit state.

    The file embeds [src/reboundx/extras.py]: the enum tables, the
    [integrator], [force_type] and [operator_type] properties, the binary
    loader [Extras.from_file], [Extras.get_effect], the forwarding
    convenience functions, the parameter-type tables and the methods that
    register, load, create and add effects.  Exported functions of the
    native library are section variables: nothing is assumed about what they
    compute. *)

From Stdlib Require Import ZArith NArith List String Ascii Bool Lia Permutation.
From Stdlib Require Import Sorted.
Import ListNotations.

Local Open Scope string_scope.
Local Open Scope Z_scope.

(** ** Python values and exceptions *)

(** The values that reach the property setters.  The module tests
    [isinstance(value, int)] and [isinstance(value, basestring)]; [basestring]
    is the builtin string base class of the interpreter the module is written
    for, so [PyStr] is a byte string, which is what [string] is. *)
Inductive pyval : Type :=
| PyInt (z : Z)
| PyStr (s : string)
| PyNone
| PyOther.

(** Exceptions, by the class the interpreter raises.  [ValueError_args] is
    [ValueError(REBX_BINARY_WARNINGS[0])], whose argument is the whole table
    entry; [UnicodeError] is what [str.encode("ascii")] raises; [NameError]
    is raised when a name that is bound nowhere is evaluated. *)
Inductive exn : Type :=
| ValueError_args (message : string) (value : Z)
| ValueError_msg (message : string)
| UnicodeError
| KeyError (key : string)
| AttributeError
| TypeError
| NameError (name : string).

(** [UnicodeError] is a subclass of [ValueError]. *)
Definition is_ValueError (e : exn) : bool :=
  match e with
  | ValueError_args _ _ | ValueError_msg _ | UnicodeError => true
  | KeyError _ | AttributeError | TypeError | NameError _ => false
  end.

Inductive result (A : Type) : Type :=
| Ok (a : A)
| Raise (e : exn).
Arguments Ok {A} a.
Arguments Raise {A} e.

(** ** Strings: [str.lower] and [str.encode("ascii")]

    On a byte string [lower] maps the letters A to Z to a to z and leaves
    every other byte alone, which is also what [str.lower] does to a text
    string made of ASCII characters only ([all_ascii]); [encode("ascii")]
    fails with a [UnicodeError] on a byte above 127. *)

Definition is_upper (c : ascii) : bool :=
  ((65 <=? N_of_ascii c) && (N_of_ascii c <=? 90))%N.

Definition lower_ascii (c : ascii) : ascii :=
  if is_upper c then ascii_of_N (N_of_ascii c + 32) else c.

Fixpoint lower (s : string) : string :=
  match s with
  | EmptyString => EmptyString
  | String c rest => String (lower_ascii c) (lower rest)
  end.

(** Two characters that are the same letter, in whatever case. *)
Definition same_letter (a b : ascii) : bool :=
  Ascii.eqb a b
  || (is_upper a && (N_of_ascii a + 32 =? N_of_ascii b)%N)
  || (is_upper b && (N_of_ascii b + 32 =? N_of_ascii a)%N).

(** [s] is [t] written in some letter case. *)
Fixpoint eq_up_to_case (s t : string) : bool :=
  match s, t with
  | EmptyString, EmptyString => true
  | String a s', String b t' => same_letter a b && eq_up_to_case s' t'
  | _, _ => false
  end.

Fixpoint all_ascii (s : string) : bool :=
  match s with
  | EmptyString => true
  | String c rest => (N_of_ascii c <? 128)%N && all_ascii rest
  end.

Definition encode_ascii (s : string) : result string :=
  if all_ascii s then Ok s else Raise UnicodeError.

(** ** C integers and pointers *)

(** The value a [c_int] holds after a Python integer is stored in it. *)
Definition c_int (z : Z) : Z := (z + 2 ^ 31) mod 2 ^ 32 - 2 ^ 31.

(** A ctypes pointer is an address; the NULL pointer is address 0 and is the
    only falsy one. *)
Definition pointer : Type := N.
Definition NULL : pointer := 0%N.
Definition pointer_bool (p : pointer) : bool := negb (p =? NULL)%N.

(** ** The tables *)

Definition dict : Type := list (string * Z).

Definition INTEGRATORS : dict :=
  [("implicit_midpoint", 0); ("rk4", 1); ("euler", 2); ("rk2", 3); ("none", -1)].

Definition REBX_TIMING : dict := [("pre", -1); ("post", 1)].
Definition REBX_FORCE_TYPE : dict := [("none", 0); ("pos", 1); ("vel", 2)].
Definition REBX_OPERATOR_TYPE : dict :=
  [("none", 0); ("updater", 1); ("recorder", 2)].

Definition REBX_BINARY_WARNINGS : list (string * Z) :=
  [("REBOUNDx Error: Cannot read binary file. Check filename and file contents.", 1);
   ("REBOUNDx Error: Binary file was corrupt. Could not read.", 2);
   ("REBOUNDx Warning: Binary file was saved with a different version of REBOUNDx. Binary format might have changed.", 4);
   ("REBOUNDx Warning: At least one parameter in the binary file was not loaded. Check simulation.", 8);
   ("REBOUNDx Warning: At least one particle's parameters in the binary file were not loaded. Check simulation.", 16);
   ("REBOUNDx Warning: At least one effect and its parameters were not loaded from the binary file. Check simulation.", 32);
   ("REBOUNDx Warning: At least one field in the binary field was not recognized, and not loaded. Probably binary was created with more recent REBOUNDx version than you are using.", 64)].

(** [d[key]] *)
Fixpoint dict_get (d : dict) (key : string) : option Z :=
  match d with
  | [] => None
  | (k, v) :: rest => if String.eqb key k then Some v else dict_get rest key
  end.

(** [key in d] *)
Definition dict_mem (key : string) (d : dict) : bool :=
  existsb (fun kv => String.eqb key (fst kv)) d.

(** [d[key]], raising [KeyError] *)
Definition dict_index (d : dict) (key : string) : result Z :=
  match dict_get d key with
  | Some v => Ok v
  | None => Raise (KeyError key)
  end.

Definition keys (d : dict) : list string := map fst d.

(** ** The names of the module

    The names that are bound at module level once the module is loaded: what
    it imports, the tables, the classes and function types it defines, and
    the variables of its last loop.  A method that evaluates another name,
    which is no builtin either, raises [NameError]. *)
Definition module_names : list string :=
  ["clibreboundx"; "Structure"; "c_double"; "POINTER"; "c_int"; "c_uint";
   "c_long"; "c_ulong"; "c_void_p"; "c_char_p"; "CFUNCTYPE"; "byref";
   "c_uint32"; "cast"; "c_char"; "rebound"; "reboundx"; "warnings";
   "INTEGRATORS"; "REBX_TIMING"; "REBX_FORCE_TYPE"; "REBX_OPERATOR_TYPE";
   "REBX_BINARY_WARNINGS"; "Extras"; "Param"; "Node"; "Operator";
   "STEPFUNCPTR"; "Force"; "FORCEFUNCPTR"; "REBX_C_TO_CTYPES"; "REBX_CTYPES";
   "REBX_C_PARAM_TYPES"; "i"; "pair"; "Params"].

Definition is_module_name (name : string) : bool :=
  existsb (String.eqb name) module_names.

(** ** class Extras *)

Module Extras.

(** [Extras._fields_] *)
Record t : Type := mk {
  _sim : pointer;
  _additional_forces : pointer;
  _pre_timestep_modifications : pointer;
  _post_timestep_modifications : pointer;
  _registered_params : pointer;
  _allocated_forces : pointer;
  _allocated_operators : pointer;
  _integrator : Z
}.

Definition set__integrator (self : t) (v : Z) : t :=
  mk (_sim self) (_additional_forces self) (_pre_timestep_modifications self)
     (_post_timestep_modifications self) (_registered_params self)
     (_allocated_forces self) (_allocated_operators self) v.

(** The loop of the getter over [items], in the order the dictionary
    yields them: the first entry whose value is [i] decides, and [i] itself
    is returned when the loop ends. *)
Fixpoint integrator_loop (items : dict) (i : Z) : pyval :=
  match items with
  | [] => PyInt i
  | (name, _i) :: rest =>
      if i =? _i then PyStr name else integrator_loop rest i
  end.

(** The getter under an iteration order [items] of [INTEGRATORS]. *)
Definition integrator_in_order (items : dict) (self : t) : pyval :=
  integrator_loop items (_integrator self).

(** The [integrator] property, read. *)
Definition integrator (self : t) : pyval :=
  integrator_in_order INTEGRATORS self.

(** The [integrator] property, assigned: the outcome and the object after
    it.  A value that is neither an int nor a string falls through both
    tests. *)
Definition integrator_setter (self : t) (value : pyval) : result unit * t :=
  match value with
  | PyInt v => (Ok tt, set__integrator self (c_int v))
  | PyStr s =>
      let value := lower s in
      if dict_mem value INTEGRATORS then
        match dict_index INTEGRATORS value with
        | Ok v => (Ok tt, set__integrator self (c_int v))
        | Raise e => (Raise e, self)
        end
      else (Raise (ValueError_msg "Warning. Integrator not found."), self)
  | PyNone | PyOther => (Ok tt, self)
  end.

(** *** The stateful methods

    What the module uses and does not declare: the fields of
    [rebound.Simulation] other than [save_messages], the [Effect] structure
    that [get_effect] names, and the exported functions of the native
    library. *)
Section Native.

Variable SimulationFields : Type.
Variable Effect : Type.

Record Simulation : Type := mkSimulation {
  save_messages : Z;
  sim_fields : SimulationFields
}.

(** Native memory, as ctypes sees it: the structure found at an
    address. *)
Record memory : Type := mkMemory {
  extras_at : pointer -> t;
  effect_at : pointer -> Effect
}.

Inductive category : Type := RuntimeWarning.

(** The simulation passed in, native memory, and the warnings issued so
    far, oldest first. *)
Record state : Type := mkState {
  st_sim : Simulation;
  st_mem : memory;
  st_warnings : list (string * category)
}.

(** A computation returns or raises, and leaves a state either way. *)
Definition M (A : Type) : Type := state -> result A * state.

Definition ret {A : Type} (a : A) : M A := fun st => (Ok a, st).

Definition raise {A : Type} (e : exn) : M A := fun st => (Raise e, st).

Definition bind {A B : Type} (c : M A) (k : A -> M B) : M B :=
  fun st =>
    match fst (c st) with
    | Ok a => k a (snd (c st))
    | Raise e => (Raise e, snd (c st))
    end.

Notation "x <- c ;; k" := (bind c (fun x => k))
  (at level 61, c at next level, right associativity).
Notation "c ;;; k" := (bind c (fun _ => k))
  (at level 61, right associativity).

Definition lift {A : Type} (r : result A) : M A := fun st => (r, st).

(** [warnings.warn(message, cat)] *)
Definition warn (message : string) (cat : category) : M unit :=
  fun st =>
    (Ok tt, mkState (st_sim st) (st_mem st) (st_warnings st ++ [(message, cat)])).

(** A call into the native library: it sees and may change the
    simulation and native memory. *)
Definition foreign {A : Type}
    (f : Simulation -> memory -> A * (Simulation * memory)) : M A :=
  fun st =>
    let r := f (st_sim st) (st_mem st) in
    (Ok (fst r), mkState (fst (snd r)) (snd (snd r)) (st_warnings st)).

(** [sim.save_messages = v] *)
Definition set_save_messages (v : Z) : M unit :=
  fun st =>
    (Ok tt, mkState (mkSimulation v (sim_fields (st_sim st))) (st_mem st)
                    (st_warnings st)).

Fixpoint for_each {A : Type} (l : list A) (body : A -> M unit) : M unit :=
  match l with
  | [] => ret tt
  | x :: rest => body x ;;; for_each rest body
  end.

(** What a call whose [restype] is a [POINTER] type hands back: a pointer
    object, NULL or not.  [None] is another object. *)
Inductive pyobj : Type :=
| ObjNone
| ObjPointer (p : pointer).

(** [o is None] *)
Definition is_None (o : pyobj) : bool :=
  match o with
  | ObjNone => true
  | ObjPointer _ => false
  end.

(** The address passed to the native side for [o]. *)
Definition as_pointer (o : pyobj) : pointer :=
  match o with
  | ObjNone => NULL
  | ObjPointer p => p
  end.

(** [o.contents]: ctypes refuses to dereference NULL. *)
Definition contents {A : Type} (view : memory -> pointer -> A) (o : pyobj) : M A :=
  match o with
  | ObjNone => raise AttributeError
  | ObjPointer p =>
      if pointer_bool p then fun st => (Ok (view (st_mem st) p), st)
      else raise (ValueError_msg "NULL pointer access")
  end.

(** Truth value of an integer. *)
Definition truthy (z : Z) : bool := negb (z =? 0).

Variable rebx_init :
  Simulation -> memory -> pointer * (Simulation * memory).
Variable rebx_create_extras_from_binary_with_messages :
  pointer -> string -> Z -> Simulation -> memory -> Z * (Simulation * memory).
Variable rebx_get_effect :
  pointer -> string -> Simulation -> memory -> pointer * (Simulation * memory).

(** The loop of [from_file] over the table. *)
Definition issue_warnings (w : Z) : M unit :=
  for_each REBX_BINARY_WARNINGS (fun entry =>
    let message := fst entry in
    let value := snd entry in
    if truthy (Z.land w value) && negb (value =? 1)
    then warn message RuntimeWarning
    else ret tt).

(** The entries the loop warns about for the word [w], in the order of
    the table, as warnings. *)
Definition issued (w : Z) : list (string * category) :=
  map (fun entry => (fst entry, RuntimeWarning))
      (filter (fun entry => truthy (Z.land w (snd entry)) && negb (snd entry =? 1))
              REBX_BINARY_WARNINGS).

(** How many warnings of a list carry [message]. *)
Definition count_message (message : string) (l : list (string * category)) : nat :=
  List.length (filter (fun x => String.eqb (fst x) message) l).

(** [clibreboundx.rebx_init(byref(sim))] with [restype = POINTER(Extras)]:
    the address the native side returns, wrapped in a pointer object. *)
Definition call_rebx_init : M pyobj :=
  p <- foreign rebx_init ;; ret (ObjPointer p).

(** [Extras.from_file(sim, filename)]; [w] starts as [c_int(0)] and the
    native loader writes the warnings word through it. *)
Definition from_file (filename : string) : M t :=
  extrasp <- call_rebx_init ;;
  cname <- lift (encode_ascii filename) ;;
  w <- foreign (rebx_create_extras_from_binary_with_messages
                  (as_pointer extrasp) cname 0) ;;
  if is_None extrasp || truthy (Z.land w 1) then
    match nth_error REBX_BINARY_WARNINGS 0 with
    | Some entry => raise (ValueError_args (fst entry) (snd entry))
    | None => raise (KeyError "0")
    end
  else
    issue_warnings w ;;;
    extras <- contents extras_at extrasp ;;
    set_save_messages 1 ;;;
    ret extras.

(** Evaluating the global name [name]. *)
Definition global_name (name : string) : M unit :=
  if is_module_name name then ret tt else raise (NameError name).

(** What [get_effect] does after its first statement: the native lookup
    and the test of the pointer.  [self] is given by its address; Python's
    [None] is [None]. *)
Definition get_effect_body (self : pointer) (name : string) : M (option Effect) :=
  cname <- lift (encode_ascii name) ;;
  ptr <- foreign (rebx_get_effect self cname) ;;
  if pointer_bool ptr then
    e <- contents effect_at (ObjPointer ptr) ;;
    ret (Some e)
  else
    warn ("Parameter " ++ name ++ " not found") RuntimeWarning ;;;
    ret None.

(** [self.get_effect(name)].  Its first statement sets the [restype] to
    [POINTER(Effect)], which evaluates the name [Effect]. *)
Definition get_effect (self : pointer) (name : string) : M (option Effect) :=
  global_name "Effect" ;;;
  get_effect_body self name.

(** *** Convenience functions

    [double] is the C double, which the interpreter's float is too; what
    [c_double(x)] accepts is ctypes' business, so the constructor is a
    variable, and so is each exported function.  An object passed with
    [byref] is given by its address; the simulation is the one of the
    state. *)
Variable double : Type.
Variable pynumber : Type.
Variable c_double : pynumber -> result double.

Variable rebx_rad_calc_beta :
  double -> double -> double -> double -> double -> double -> double ->
  Simulation -> memory -> double * (Simulation * memory).
Variable rebx_rad_calc_particle_radius :
  double -> double -> double -> double -> double -> double -> double ->
  Simulation -> memory -> double * (Simulation * memory).
Variable rebx_gr_hamiltonian :
  pointer -> Simulation -> memory -> double * (Simulation * memory).
Variable rebx_gr_potential_hamiltonian :
  pointer -> Simulation -> memory -> double * (Simulation * memory).
Variable rebx_gr_full_hamiltonian :
  pointer -> Simulation -> memory -> double * (Simulation * memory).
Variable rebx_tides_precession_hamiltonian :
  pointer -> Simulation -> memory -> double * (Simulation * memory).
Variable rebx_central_force_hamiltonian :
  Simulation -> memory -> double * (Simulation * memory).
Variable rebx_gravitational_harmonics_hamiltonian :
  Simulation -> memory -> double * (Simulation * memory).

Definition rad_calc_beta (G c source_mass source_luminosity radius density Q_pr : pynumber)
  : M double :=
  a1 <- lift (c_double G) ;;
  a2 <- lift (c_double c) ;;
  a3 <- lift (c_double source_mass) ;;
  a4 <- lift (c_double source_luminosity) ;;
  a5 <- lift (c_double radius) ;;
  a6 <- lift (c_double density) ;;
  a7 <- lift (c_double Q_pr) ;;
  foreign (rebx_rad_calc_beta a1 a2 a3 a4 a5 a6 a7).

Definition rad_calc_particle_radius
    (G c source_mass source_luminosity beta density Q_pr : pynumber) : M double :=
  a1 <- lift (c_double G) ;;
  a2 <- lift (c_double c) ;;
  a3 <- lift (c_double source_mass) ;;
  a4 <- lift (c_double source_luminosity) ;;
  a5 <- lift (c_double beta) ;;
  a6 <- lift (c_double density) ;;
  a7 <- lift (c_double Q_pr) ;;
  foreign (rebx_rad_calc_particle_radius a1 a2 a3 a4 a5 a6 a7).

Definition gr_hamiltonian (params : pointer) : M double :=
  foreign (rebx_gr_hamiltonian params).

Definition gr_potential_hamiltonian (params : pointer) : M double :=
  foreign (rebx_gr_potential_hamiltonian params).

Definition gr_full_hamiltonian (params : pointer) : M double :=
  foreign (rebx_gr_full_hamiltonian params).

Definition tides_precession_hamiltonian (params : pointer) : M double :=
  foreign (rebx_tides_precession_hamiltonian params).

Definition central_force_hamiltonian : M double :=
  foreign rebx_central_force_hamiltonian.

Definition gravitational_harmonics_hamiltonian : M double :=
  foreign rebx_gravitational_harmonics_hamiltonian.

End Native.

End Extras.

(** ** class Operator and class Force *)

Module Operator.

(** [Operator._fields_]; [_step] is a function pointer. *)
Record t : Type := mk {
  name : pointer;
  _ap : pointer;
  _sim : pointer;
  _operator_type : Z;
  _step : pointer
}.


Definition operator_type_setter (self : t) (value : pyval) : result unit * t :=
  match value with
  | PyStr s =>
      match dict_index REBX_OPERATOR_TYPE (lower s) with
      | Ok v => (Ok tt, mk (name self) (_ap self) (_sim self) (c_int v) (_step self))
      | Raise e => (Raise e, self)
      end
  | PyInt _ | PyNone | PyOther => (Raise AttributeError, self)
  end.

End Operator.

Module Force.

(** [Force._fields_]; [_update_accelerations] is a function pointer. *)
Record t : Type := mk {
  name : pointer;
  ap : pointer;
  _sim : pointer;
  _force_type : Z;
  _update_accelerations : pointer
}.


Definition force_type_setter (self : t) (value : pyval) : result unit * t :=
  match value with
  | PyStr s =>
      match dict_index REBX_FORCE_TYPE (lower s) with
      | Ok v => (Ok tt, mk (name self) (ap self) (_sim self) (c_int v) (_update_accelerations self))
      | Raise e => (Raise e, self)
      end
  | PyInt _ | PyNone | PyOther => (Raise AttributeError, self)
  end.

End Force.

Arguments Extras.mkSimulation {SimulationFields} save_messages sim_fields.
Arguments Extras.save_messages {SimulationFields} s.
Arguments Extras.sim_fields {SimulationFields} s.
Arguments Extras.mkMemory {Effect} extras_at effect_at.
Arguments Extras.extras_at {Effect} m p.
Arguments Extras.effect_at {Effect} m p.
Arguments Extras.mkState {SimulationFields Effect} st_sim st_mem st_warnings.
Arguments Extras.st_sim {SimulationFields Effect} s.
Arguments Extras.st_mem {SimulationFields Effect} s.
Arguments Extras.st_warnings {SimulationFields Effect} s.
Arguments Extras.call_rebx_init {SimulationFields Effect} rebx_init _.
Arguments Extras.issue_warnings {SimulationFields Effect} w _.
Arguments Extras.warn {SimulationFields Effect} message cat _.
Arguments Extras.ret {SimulationFields Effect A} a _.
Arguments Extras.bind {SimulationFields Effect A B} c k _.
Arguments Extras.set_save_messages {SimulationFields Effect} v _.
Arguments Extras.for_each {SimulationFields Effect A} l body _.
Arguments Extras.contents {SimulationFields Effect A} view o _.
Arguments Extras.from_file {SimulationFields Effect}
  rebx_init rebx_create_extras_from_binary_with_messages filename _.
Arguments Extras.get_effect {SimulationFields Effect} rebx_get_effect self name _.
Arguments Extras.get_effect_body {SimulationFields Effect} rebx_get_effect self name _.
Arguments Extras.rad_calc_beta {SimulationFields Effect double pynumber}
  c_double rebx_rad_calc_beta G c source_mass source_luminosity radius density Q_pr _.
Arguments Extras.rad_calc_particle_radius {SimulationFields Effect double pynumber}
  c_double rebx_rad_calc_particle_radius
  G c source_mass source_luminosity beta density Q_pr _.
Arguments Extras.gr_hamiltonian {SimulationFields Effect double}
  rebx_gr_hamiltonian params _.
Arguments Extras.gr_potential_hamiltonian {SimulationFields Effect double}
  rebx_gr_potential_hamiltonian params _.
Arguments Extras.gr_full_hamiltonian {SimulationFields Effect double}
  rebx_gr_full_hamiltonian params _.
Arguments Extras.tides_precession_hamiltonian {SimulationFields Effect double}
  rebx_tides_precession_hamiltonian params _.
Arguments Extras.central_force_hamiltonian {SimulationFields Effect double}
  rebx_central_force_hamiltonian _.
Arguments Extras.gravitational_harmonics_hamiltonian {SimulationFields Effect double}
  rebx_gravitational_harmonics_hamiltonian _.

(** ** The parameter-type tables built when the module is loaded *)

(** The ctypes types the table pairs with the C enum names. *)
Inductive ctype : Type :=
| c_double_type
| c_int_type
| c_void_p_type
| Force_type.

(** [d[key] = v] on a dictionary: an existing key keeps its place and gets
    the new value, a new key goes last. *)
Fixpoint dict_set (d : dict) (key : string) (v : Z) : dict :=
  match d with
  | [] => [(key, v)]
  | (k, u) :: rest =>
      if String.eqb key k then (k, v) :: rest else (k, u) :: dict_set rest key v
  end.

(** A dictionary with integer keys, as [REBX_CTYPES] is. *)
Definition int_dict (A : Type) : Type := list (Z * A).

Fixpoint int_dict_get {A : Type} (d : int_dict A) (key : Z) : option A :=
  match d with
  | [] => None
  | (k, v) :: rest => if key =? k then Some v else int_dict_get rest key
  end.

Fixpoint int_dict_set {A : Type} (d : int_dict A) (key : Z) (v : A) : int_dict A :=
  match d with
  | [] => [(key, v)]
  | (k, u) :: rest =>
      if key =? k then (k, v) :: rest else (k, u) :: int_dict_set rest key v
  end.

(** [None] in the table is [None] here. *)
Definition REBX_C_TO_CTYPES : list (string * option ctype) :=
  [("REBX_TYPE_NONE", None);
   ("REBX_TYPE_DOUBLE", Some c_double_type);
   ("REBX_TYPE_INT", Some c_int_type);
   ("REBX_TYPE_POINTER", Some c_void_p_type);
   ("REBX_TYPE_FORCE", Some Force_type)].

(** The loop [for i, pair in enumerate(pairs)] from index [i] on, over the
    two dictionaries it fills. *)
Fixpoint fill_tables (i : Z) (pairs : list (string * option ctype))
    (tables : int_dict (option ctype) * dict) : int_dict (option ctype) * dict :=
  match pairs with
  | [] => tables
  | item :: rest =>
      fill_tables (i + 1) rest
        (int_dict_set (fst tables) i (snd item), dict_set (snd tables) (fst item) i)
  end.

Definition REBX_CTYPES : int_dict (option ctype) :=
  fst (fill_tables 0 REBX_C_TO_CTYPES ([], [])).

Definition REBX_C_PARAM_TYPES : dict :=
  snd (fill_tables 0 REBX_C_TO_CTYPES ([], [])).

(** ** The other methods of [Extras] *)

Module Methods.

Section Native.

Variable SimulationFields : Type.
Variable Effect : Type.

Local Abbreviation Sim := (Extras.Simulation SimulationFields).
Local Abbreviation Mem := (Extras.memory Effect).
Local Abbreviation M := (Extras.M SimulationFields Effect).
Local Abbreviation lift := (Extras.lift SimulationFields Effect).
Local Abbreviation foreign := (Extras.foreign SimulationFields Effect).

Local Notation "x <- c ;; k" := (Extras.bind c (fun x => k))
  (at level 61, c at next level, right associativity).
Local Notation "c ;;; k" := (Extras.bind c (fun _ => k))
  (at level 61, right associativity).

(** [Simulation.process_messages] belongs to rebound: it may warn, raise and
    change the simulation. *)
Variable process_messages : M unit.

(** How ctypes reads a [Force] and an [Operator] structure at an address. *)
Variable force_at : Mem -> pointer -> Force.t.
Variable operator_at : Mem -> pointer -> Operator.t.

Variable double : Type.
Variable pynumber : Type.
Variable c_double : pynumber -> result double.

Variable rebx_initialize : pointer -> Sim -> Mem -> unit * (Sim * Mem).
Variable rebx_register_param :
  pointer -> string -> Z -> Sim -> Mem -> unit * (Sim * Mem).
Variable rebx_load_force : pointer -> string -> Sim -> Mem -> pointer * (Sim * Mem).
Variable rebx_create_force : pointer -> string -> Sim -> Mem -> pointer * (Sim * Mem).
Variable rebx_load_operator : pointer -> string -> Sim -> Mem -> pointer * (Sim * Mem).
Variable rebx_create_operator : pointer -> string -> Sim -> Mem -> pointer * (Sim * Mem).
Variable rebx_add_force : pointer -> pointer -> Sim -> Mem -> unit * (Sim * Mem).
Variable rebx_add_operator : pointer -> pointer -> Sim -> Mem -> unit * (Sim * Mem).
Variable rebx_add_operator_step :
  pointer -> pointer -> double -> Z -> string -> Sim -> Mem -> unit * (Sim * Mem).
Variable rebx_output_binary : pointer -> string -> Sim -> Mem -> unit * (Sim * Mem).

(** [self._sim.contents.process_messages()], [self] given by its address:
    the pointer field is read from the structure and dereferenced. *)
Definition self_sim_process_messages (self : pointer) : M unit :=
  _sim <- (fun st => (Ok (Extras._sim (Extras.extras_at (Extras.st_mem st) self)), st)) ;;
  Extras.contents (fun _ _ => tt) (Extras.ObjPointer _sim) ;;;
  process_messages.

(** [Extras.__init__(self, sim)] over the attribute [sim._extras_ref]:
    [None] when the simulation has no such attribute, the address of the
    object it refers to otherwise.  The outcome comes with the attribute as
    it is afterwards. *)
Definition __init__ (_extras_ref : option pointer) (self : pointer)
  : Extras.state SimulationFields Effect ->
    result unit * (option pointer * Extras.state SimulationFields Effect) :=
  fun st =>
    let st1 := snd (foreign (rebx_initialize self) st) in
    match _extras_ref with
    | None =>
        match fst (process_messages st1) with
        | Ok _ => (Ok tt, (Some self, snd (process_messages st1)))
        | Raise e => (Raise e, (None, snd (process_messages st1)))
        end
    | Some _ => (Ok tt, (Some self, st1))
    end.

Definition register_param (self : pointer) (name param_type : string) : M unit :=
  type_enum <- lift (dict_index REBX_C_PARAM_TYPES param_type) ;;
  cname <- lift (encode_ascii name) ;;
  foreign (rebx_register_param self cname (c_int type_enum)) ;;;
  self_sim_process_messages self.

(** The shape shared by [load_force], [create_force], [load_operator] and
    [create_operator]: the native call, the messages, then [ptr.contents]. *)
Definition call_then_contents {A : Type}
    (native : pointer -> string -> Sim -> Mem -> pointer * (Sim * Mem))
    (view : Mem -> pointer -> A) (self : pointer) (name : string) : M A :=
  cname <- lift (encode_ascii name) ;;
  ptr <- foreign (native self cname) ;;
  self_sim_process_messages self ;;;
  Extras.contents view (Extras.ObjPointer ptr).

Definition load_force : pointer -> string -> M Force.t :=
  call_then_contents rebx_load_force force_at.

Definition create_force : pointer -> string -> M Force.t :=
  call_then_contents rebx_create_force force_at.

Definition load_operator : pointer -> string -> M Operator.t :=
  call_then_contents rebx_load_operator operator_at.

Definition create_operator : pointer -> string -> M Operator.t :=
  call_then_contents rebx_create_operator operator_at.

Definition add_force (self force : pointer) : M unit :=
  foreign (rebx_add_force self force) ;;;
  self_sim_process_messages self.

(** [add_operator(operator, dt_fraction, timing, name)]; [dt_fraction] is
    [None] or a number. *)
Definition add_operator (self operator : pointer) (dt_fraction : option pynumber)
    (timing name : string) : M unit :=
  match dt_fraction with
  | None => foreign (rebx_add_operator self operator)
  | Some dt =>
      timingint <- lift (dict_index REBX_TIMING timing) ;;
      d <- lift (c_double dt) ;;
      cname <- lift (encode_ascii name) ;;
      foreign
        (rebx_add_operator_step self operator d (c_int timingint) cname)
  end ;;;
  self_sim_process_messages self.

Definition save (self : pointer) (filename : string) : M unit :=
  cname <- lift (encode_ascii filename) ;;
  foreign (rebx_output_binary self cname).

End Native.

End Methods.

Arguments Methods.self_sim_process_messages {SimulationFields Effect}
  process_messages self _.
Arguments Methods.__init__ {SimulationFields Effect}
  process_messages rebx_initialize _extras_ref self _.
Arguments Methods.register_param {SimulationFields Effect}
  process_messages rebx_register_param self name param_type _.
Arguments Methods.call_then_contents {SimulationFields Effect}
  process_messages {A} native view self name _.
Arguments Methods.load_force {SimulationFields Effect}
  process_messages force_at rebx_load_force _ _ _.
Arguments Methods.create_force {SimulationFields Effect}
  process_messages force_at rebx_create_force _ _ _.
Arguments Methods.load_operator {SimulationFields Effect}
  process_messages operator_at rebx_load_operator _ _ _.
Arguments Methods.create_operator {SimulationFields Effect}
  process_messages operator_at rebx_create_operator _ _ _.
Arguments Methods.add_force {SimulationFields Effect}
  process_messages rebx_add_force self force _.
Arguments Methods.add_operator {SimulationFields Effect}
  process_messages {double pynumber} c_double rebx_add_operator
  rebx_add_operator_step self operator dt_fraction timing name _.
Arguments Methods.save {SimulationFields Effect} rebx_output_binary self filename _.

(** ** A small native side, on which the methods can be run *)

Module Sample.

Definition extras0 : Extras.t :=
  Extras.mk NULL NULL NULL NULL NULL NULL NULL 0.

Definition sim0 : Extras.Simulation unit := Extras.mkSimulation 0 tt.

Definition mem0 : Extras.memory unit :=
  Extras.mkMemory (fun _ => extras0) (fun _ => tt).

Definition st0 : Extras.state unit unit := Extras.mkState sim0 mem0 [].

(** A [rebx_init] that returns the address [p]. *)
Definition init_at (p : pointer)
    (sim : Extras.Simulation unit) (mem : Extras.memory unit)
  : pointer * (Extras.Simulation unit * Extras.memory unit) :=
  (p, (sim, mem)).

(** A loader that reports the warnings word [w]. *)
Definition load_word (w : Z) (_ : pointer) (_ : string) (_ : Z)
    (sim : Extras.Simulation unit) (mem : Extras.memory unit)
  : Z * (Extras.Simulation unit * Extras.memory unit) :=
  (w, (sim, mem)).

(** A seven-argument native function over integers standing for doubles. *)
Definition weigh (a1 a2 a3 a4 a5 a6 a7 : Z)
    (sim : Extras.Simulation unit) (mem : Extras.memory unit)
  : Z * (Extras.Simulation unit * Extras.memory unit) :=
  (a1 + 2 * a2 + 3 * a3 + 4 * a4 + 5 * a5 + 6 * a6 + 7 * a7, (sim, mem)).

(** A [c_double] that accepts non-negative integers only. *)
Definition marshal (x : Z) : result Z :=
  if 0 <=? x then Ok x else Raise TypeError.

(** A native function that creates nothing and answers with the address
    [p]. *)
Definition answer_at (p : pointer) (_ : pointer) (_ : string)
    (sim : Extras.Simulation unit) (mem : Extras.memory unit)
  : pointer * (Extras.Simulation unit * Extras.memory unit) :=
  (p, (sim, mem)).

(** Native functions without a result that count their calls in
    [save_messages], to make a call visible. *)
Definition count_call (sim : Extras.Simulation unit) (mem : Extras.memory unit)
  : unit * (Extras.Simulation unit * Extras.memory unit) :=
  (tt, (Extras.mkSimulation (Extras.save_messages sim + 1) tt, mem)).

(** A [process_messages] with nothing to report. *)
Definition quiet : Extras.M unit unit unit := fun st => (Ok tt, st).

(** Memory in which the structure at every address refers to a simulation
    at address 1. *)
Definition mem1 : Extras.memory unit :=
  Extras.mkMemory
    (fun _ => Extras.mk 1%N NULL NULL NULL NULL NULL NULL 0) (fun _ => tt).

Definition st1 : Extras.state unit unit := Extras.mkState sim0 mem1 [].

Definition force0 : Force.t := Force.mk NULL NULL NULL 0 NULL.

Definition operator0 : Operator.t := Operator.mk NULL NULL NULL 0 NULL.

End Sample.

(** * Properties *)

(** ** Letter case *)

Lemma lower_ascii_fixed (c : ascii) : is_upper c = false -> lower_ascii c = c.
Proof. unfold lower_ascii; intros ->; reflexivity. Qed.

Lemma same_letter_lower (a b : ascii) :
  same_letter a b = true -> lower_ascii a = lower_ascii b.
Proof.
  unfold same_letter; intros H.
  apply orb_true_iff in H as [H | H]; [apply orb_true_iff in H as [H | H] |].
  - apply Ascii.eqb_eq in H; now subst.
  - apply andb_true_iff in H as [Ha Hab]; apply N.eqb_eq in Hab.
    assert (Hb : is_upper b = false).
    { unfold is_upper in *. apply andb_true_iff in Ha as [Ha1 Ha2].
      apply N.leb_le in Ha1. apply andb_false_iff; right.
      apply N.leb_gt. lia. }
    rewrite (lower_ascii_fixed b Hb). unfold lower_ascii; rewrite Ha, Hab.
    apply ascii_N_embedding.
  - apply andb_true_iff in H as [Hb Hba]; apply N.eqb_eq in Hba.
    assert (Ha : is_upper a = false).
    { unfold is_upper in *. apply andb_true_iff in Hb as [Hb1 Hb2].
      apply N.leb_le in Hb1. apply andb_false_iff; right.
      apply N.leb_gt. lia. }
    rewrite (lower_ascii_fixed a Ha). unfold lower_ascii; rewrite Hb, Hba.
    symmetry; apply ascii_N_embedding.
Qed.

Lemma eq_up_to_case_lower (s t : string) :
  eq_up_to_case s t = true -> lower s = lower t.
Proof.
  revert t; induction s as [| a s IH]; intros [| b t] H; simpl in *;
    try discriminate; try reflexivity.
  apply andb_true_iff in H as [Hab Hst].
  now rewrite (same_letter_lower a b Hab), (IH t Hst).
Qed.

(** ** Lookup in a table *)

Lemma dict_get_In (d : dict) (key : string) (v : Z) :
  NoDup (keys d) -> In (key, v) d -> dict_get d key = Some v.
Proof.
  induction d as [| [k u] d IH]; simpl; intros Hnd Hin; [contradiction |].
  inversion Hnd as [| ? ? Hk Hnd']; subst.
  destruct Hin as [Heq | Hin].
  - inversion Heq; subst. now rewrite String.eqb_refl.
  - destruct (String.eqb key k) eqn:E.
    + apply String.eqb_eq in E; subst. exfalso; apply Hk.
      change k with (fst (k, v)). now apply in_map.
    + now apply IH.
Qed.

Lemma dict_mem_In (d : dict) (key : string) :
  dict_mem key d = true <-> In key (keys d).
Proof.
  unfold dict_mem, keys. rewrite existsb_exists, in_map_iff. split.
  - intros [kv [Hin E]]. apply String.eqb_eq in E. now exists kv.
  - intros [kv [E Hin]]. exists kv. split; [assumption |].
    now apply String.eqb_eq.
Qed.

(** ** The getter's loop does not depend on the order of the items *)

Lemma integrator_loop_found (items : dict) (name : string) (i : Z) :
  NoDup (map snd items) -> In (name, i) items ->
  Extras.integrator_loop items i = PyStr name.
Proof.
  induction items as [| [k u] items IH]; simpl; intros Hnd Hin; [contradiction |].
  inversion Hnd as [| ? ? Hu Hnd']; subst.
  destruct Hin as [Heq | Hin].
  - inversion Heq; subst. now rewrite Z.eqb_refl.
  - destruct (i =? u) eqn:E.
    + apply Z.eqb_eq in E; subst. exfalso; apply Hu.
      change u with (snd (name, u)). now apply in_map.
    + now apply IH.
Qed.

Lemma integrator_loop_missing (items : dict) (i : Z) :
  (forall name, ~ In (name, i) items) ->
  Extras.integrator_loop items i = PyInt i.
Proof.
  induction items as [| [k u] items IH]; simpl; intros Hno; [reflexivity |].
  destruct (i =? u) eqn:E.
  - apply Z.eqb_eq in E; subst. exfalso; apply (Hno k). now left.
  - apply IH. intros name Hin. apply (Hno name). now right.
Qed.

Lemma INTEGRATORS_values_NoDup : NoDup (map snd INTEGRATORS).
Proof. simpl. repeat constructor; simpl; intuition discriminate. Qed.

Lemma INTEGRATORS_keys_NoDup : NoDup (keys INTEGRATORS).
Proof. simpl. repeat constructor; simpl; intuition discriminate. Qed.


(** ** The [integrator] property *)



Lemma INTEGRATORS_keys_lower (key : string) :
  In key (keys INTEGRATORS) -> lower key = key.
Proof.
  simpl; intros H.
  repeat (destruct H as [H | H]; [subst; reflexivity |]); contradiction.
Qed.

Lemma INTEGRATORS_values_c_int (key : string) (v : Z) :
  In (key, v) INTEGRATORS -> c_int v = v.
Proof.
  simpl; intros H.
  repeat (destruct H as [H | H]; [inversion H; subst; reflexivity |]);
    contradiction.
Qed.

Lemma keys_In (d : dict) (key : string) :
  In key (keys d) -> exists v, In (key, v) d.
Proof.
  unfold keys; rewrite in_map_iff. intros [[k v] [E Hin]]; simpl in E; subst.
  now exists v.
Qed.

(** C4.  A key of [INTEGRATORS] written in any letter case can be assigned to
    [integrator], and the property then reads as the lowercase name. *)
Theorem integrator_set_get_roundtrip (self : Extras.t) (s key : string) :
  In key (keys INTEGRATORS) ->
  eq_up_to_case s key = true ->
  exists self',
    Extras.integrator_setter self (PyStr s) = (Ok tt, self')
    /\ Extras.integrator self' = PyStr key.
Proof.
  intros Hkey Hcase.
  assert (Hlow : lower s = key).
  { rewrite (eq_up_to_case_lower s key Hcase). now apply INTEGRATORS_keys_lower. }
  destruct (keys_In _ _ Hkey) as [v Hv].
  exists (Extras.set__integrator self v). unfold Extras.integrator_setter.
  rewrite Hlow, (proj2 (dict_mem_In INTEGRATORS key) Hkey).
  unfold dict_index.
  rewrite (dict_get_In _ _ _ INTEGRATORS_keys_NoDup Hv).
  rewrite (INTEGRATORS_values_c_int _ _ Hv). split; [reflexivity |].
  apply integrator_loop_found; [apply INTEGRATORS_values_NoDup | exact Hv].
Qed.

Lemma integrator_set_get_roundtrip_witness :
  exists self',
    Extras.integrator_setter (Extras.mk NULL NULL NULL NULL NULL NULL NULL 0) (PyStr "Implicit_MidPoint")
    = (Ok tt, self')
    /\ Extras.integrator self' = PyStr "implicit_midpoint".
Proof.
  apply (integrator_set_get_roundtrip (Extras.mk NULL NULL NULL NULL NULL NULL NULL 0)
           "Implicit_MidPoint" "implicit_midpoint").
  - simpl; tauto.
  - reflexivity.
Defined.

(** C5.  A string whose lowercase form is no key of [INTEGRATORS] is refused
    with [ValueError], and the object is as it was, [_integrator]
    included. *)
Theorem integrator_set_unknown_raises (self : Extras.t) (s : string) :
  ~ In (lower s) (keys INTEGRATORS) ->
  exists e,
    Extras.integrator_setter self (PyStr s) = (Raise e, self)
    /\ is_ValueError e = true
    /\ Extras._integrator (snd (Extras.integrator_setter self (PyStr s)))
       = Extras._integrator self.
Proof.
  intros Hno. exists (ValueError_msg "Warning. Integrator not found.").
  unfold Extras.integrator_setter.
  destruct (dict_mem (lower s) INTEGRATORS) eqn:E.
  - exfalso; apply Hno. now apply dict_mem_In.
  - repeat split.
Qed.

Lemma integrator_set_unknown_raises_witness :
  exists e,
    Extras.integrator_setter (Extras.mk NULL NULL NULL NULL NULL NULL NULL 1) (PyStr "WHFast")
    = (Raise e, Extras.mk NULL NULL NULL NULL NULL NULL NULL 1)
    /\ is_ValueError e = true
    /\ Extras._integrator
         (snd (Extras.integrator_setter (Extras.mk NULL NULL NULL NULL NULL NULL NULL 1) (PyStr "WHFast")))
       = 1.
Proof.
  apply (integrator_set_unknown_raises (Extras.mk NULL NULL NULL NULL NULL NULL NULL 1) "WHFast").
  simpl. intros H.
  repeat (destruct H as [H | H]; [discriminate H |]); exact H.
Defined.

(** ** The [force_type] and [operator_type] properties *)

Lemma REBX_FORCE_TYPE_entry (key : string) (v : Z) :
  In (key, v) REBX_FORCE_TYPE ->
  lower key = key /\ c_int v = v /\ dict_get REBX_FORCE_TYPE key = Some v.
Proof.
  simpl; intros H.
  repeat (destruct H as [H | H]; [inversion H; subst; repeat split |]);
    contradiction.
Qed.

Lemma REBX_OPERATOR_TYPE_entry (key : string) (v : Z) :
  In (key, v) REBX_OPERATOR_TYPE ->
  lower key = key /\ c_int v = v /\ dict_get REBX_OPERATOR_TYPE key = Some v.
Proof.
  simpl; intros H.
  repeat (destruct H as [H | H]; [inversion H; subst; repeat split |]);
    contradiction.
Qed.



(** ** [Extras.from_file] *)

Section FromFile.

Variable SimulationFields : Type.
Variable Effect : Type.
Variable rebx_init :
  Extras.Simulation SimulationFields -> Extras.memory Effect ->
  pointer * (Extras.Simulation SimulationFields * Extras.memory Effect).
Variable rebx_create_extras_from_binary_with_messages :
  pointer -> string -> Z ->
  Extras.Simulation SimulationFields -> Extras.memory Effect ->
  Z * (Extras.Simulation SimulationFields * Extras.memory Effect).

Local Abbreviation state := (Extras.state SimulationFields Effect).
Local Abbreviation from_file :=
  (Extras.from_file rebx_init rebx_create_extras_from_binary_with_messages).

Lemma for_each_warn_run (w : Z) (l : list (string * Z)) (st : state) :
  Extras.for_each l (fun entry =>
      if Extras.truthy (Z.land w (snd entry)) && negb (snd entry =? 1)
      then Extras.warn (fst entry) Extras.RuntimeWarning
      else Extras.ret tt) st
  = (Ok tt,
     Extras.mkState (Extras.st_sim st) (Extras.st_mem st)
       (Extras.st_warnings st
        ++ map (fun entry => (fst entry, Extras.RuntimeWarning))
             (filter (fun entry =>
                        Extras.truthy (Z.land w (snd entry)) && negb (snd entry =? 1))
                     l))).
Proof.
  revert st; induction l as [| entry l IH]; intros st.
  - simpl. rewrite app_nil_r. now destruct st.
  - simpl. unfold Extras.bind.
    destruct (Extras.truthy (Z.land w (snd entry)) && negb (snd entry =? 1)); simpl.
    + rewrite IH. simpl. now rewrite <- app_assoc.
    + apply IH.
Qed.

Lemma issue_warnings_run (w : Z) (st : state) :
  Extras.issue_warnings w st
  = (Ok tt,
     Extras.mkState (Extras.st_sim st) (Extras.st_mem st)
       (Extras.st_warnings st ++ Extras.issued w)).
Proof. apply for_each_warn_run. Qed.

(** The three ways [from_file] ends once the file name is encoded and the two
    native calls have returned. *)
Lemma from_file_run (filename cname : string) (st : state)
    (p : pointer) (w : Z)
    (sim1 sim2 : Extras.Simulation SimulationFields)
    (mem1 mem2 : Extras.memory Effect) :
  encode_ascii filename = Ok cname ->
  rebx_init (Extras.st_sim st) (Extras.st_mem st) = (p, (sim1, mem1)) ->
  rebx_create_extras_from_binary_with_messages p cname 0 sim1 mem1
  = (w, (sim2, mem2)) ->
  from_file filename st =
    if Extras.truthy (Z.land w 1) then
      (Raise (ValueError_args
                "REBOUNDx Error: Cannot read binary file. Check filename and file contents." 1),
       Extras.mkState sim2 mem2 (Extras.st_warnings st))
    else if pointer_bool p then
      (Ok (Extras.extras_at mem2 p),
       Extras.mkState (Extras.mkSimulation 1 (Extras.sim_fields sim2)) mem2
         (Extras.st_warnings st ++ Extras.issued w))
    else
      (Raise (ValueError_msg "NULL pointer access"),
       Extras.mkState sim2 mem2 (Extras.st_warnings st ++ Extras.issued w)).
Proof.
  intros Henc Hinit Hload.
  unfold Extras.from_file, Extras.call_rebx_init, Extras.bind, Extras.foreign,
    Extras.lift, Extras.ret. simpl.
  rewrite Hinit, Henc. simpl. rewrite Hload. simpl.
  destruct (Extras.truthy (Z.land w 1)); [reflexivity |].
  rewrite issue_warnings_run. simpl.
  unfold Extras.contents.
  destruct (pointer_bool p); reflexivity.
Qed.

Lemma truthy_true (z : Z) : Extras.truthy z = true <-> z <> 0.
Proof.
  unfold Extras.truthy. rewrite negb_true_iff, Z.eqb_neq. reflexivity.
Qed.

Lemma truthy_false (z : Z) : Extras.truthy z = false <-> z = 0.
Proof.
  unfold Extras.truthy. rewrite negb_false_iff, Z.eqb_eq. reflexivity.
Qed.

Lemma issued_from_table (w : Z) (x : string * Extras.category) :
  In x (Extras.issued w) ->
  exists message value,
    x = (message, Extras.RuntimeWarning)
    /\ In (message, value) REBX_BINARY_WARNINGS
    /\ In value [2; 4; 8; 16; 32; 64]
    /\ Z.land w value <> 0.
Proof.
  unfold Extras.issued. rewrite in_map_iff.
  intros [[message value] [Hx Hin]]. apply filter_In in Hin as [Hin Hc].
  simpl in Hx, Hc. apply andb_true_iff in Hc as [Hw Hv].
  apply truthy_true in Hw. apply negb_true_iff, Z.eqb_neq in Hv.
  exists message, value. repeat split; auto.
  simpl in Hin.
  repeat (destruct Hin as [Hin | Hin];
          [inversion Hin; subst; simpl; try tauto; now elim Hv |]).
  contradiction.
Qed.

Lemma issued_segments (w : Z) :
  Extras.issued w =
    map (fun entry => (fst entry, Extras.RuntimeWarning))
      (filter (fun entry => Extras.truthy (Z.land w (snd entry)))
         (tl REBX_BINARY_WARNINGS)).
Proof.
  unfold Extras.issued, REBX_BINARY_WARNINGS.
  cbn [filter snd tl Z.eqb negb Pos.eqb]. rewrite andb_false_r.
  repeat rewrite andb_true_r. reflexivity.
Qed.

Lemma count_message_absent (c : string * Z -> bool) (l : list (string * Z))
    (message : string) :
  ~ In message (map fst l) ->
  Extras.count_message message
    (map (fun entry => (fst entry, Extras.RuntimeWarning)) (filter c l)) = 0%nat.
Proof.
  unfold Extras.count_message.
  induction l as [| [k u] l IH]; simpl; intros Hno; [reflexivity |].
  destruct (c (k, u)); simpl.
  - destruct (String.eqb k message) eqn:E.
    + apply String.eqb_eq in E. exfalso; apply Hno; now left.
    + apply IH. intros H; apply Hno; now right.
  - apply IH. intros H; apply Hno; now right.
Qed.

Lemma count_message_unique (c : string * Z -> bool) (l : list (string * Z))
    (message : string) (value : Z) :
  NoDup (map fst l) -> In (message, value) l ->
  Extras.count_message message
    (map (fun entry => (fst entry, Extras.RuntimeWarning)) (filter c l))
  = if c (message, value) then 1%nat else 0%nat.
Proof.
  induction l as [| [k u] l IH]; simpl; intros Hnd Hin; [contradiction |].
  inversion Hnd as [| ? ? Hk Hnd']; subst.
  destruct Hin as [Heq | Hin].
  - inversion Heq; subst.
    pose proof (count_message_absent c l message Hk) as H0.
    unfold Extras.count_message in *.
    destruct (c (message, value)); simpl.
    + rewrite String.eqb_refl. simpl. now rewrite H0.
    + exact H0.
  - assert (Hne : String.eqb k message = false).
    { apply String.eqb_neq. intros ->. apply Hk.
      change message with (fst (message, value)). now apply in_map. }
    specialize (IH Hnd' Hin). unfold Extras.count_message in *.
    destruct (c (k, u)); simpl; [rewrite Hne |]; exact IH.
Qed.

Lemma REBX_BINARY_WARNINGS_messages_NoDup :
  NoDup (map fst REBX_BINARY_WARNINGS).
Proof.
  apply (NoDup_count_occ' string_dec). intros x Hin. simpl in Hin.
  repeat (destruct Hin as [Hin | Hin]; [subst x; vm_compute; reflexivity |]).
  contradiction.
Qed.

Lemma issued_count (w : Z) (message : string) (value : Z) :
  In (message, value) REBX_BINARY_WARNINGS ->
  In value [2; 4; 8; 16; 32; 64] ->
  Extras.count_message message (Extras.issued w)
  = if Z.land w value =? 0 then 0%nat else 1%nat.
Proof.
  intros Hin Hv. rewrite issued_segments.
  assert (Hin' : In (message, value) (tl REBX_BINARY_WARNINGS)).
  { destruct Hin as [Heq | Hin]; [| exact Hin].
    inversion Heq; subst. simpl in Hv. intuition discriminate. }
  rewrite (count_message_unique _ _ message value); [| | exact Hin'].
  - simpl. unfold Extras.truthy. now destruct (Z.land w value =? 0).
  - pose proof REBX_BINARY_WARNINGS_messages_NoDup as H.
    now inversion H.
Qed.

Lemma from_file_encode_fails (filename : string) (st : state) (e : exn) :
  encode_ascii filename = Raise e ->
  from_file filename st =
    (Raise e,
     Extras.mkState
       (fst (snd (rebx_init (Extras.st_sim st) (Extras.st_mem st))))
       (snd (snd (rebx_init (Extras.st_sim st) (Extras.st_mem st))))
       (Extras.st_warnings st)).
Proof.
  intros Henc.
  unfold Extras.from_file, Extras.call_rebx_init, Extras.bind, Extras.foreign,
    Extras.lift, Extras.ret. simpl.
  rewrite Henc. reflexivity.
Qed.

(** C1, amended.  When bit 1 of the warnings word is set, [from_file] raises
    [ValueError] and returns no object.  Bit 2 alone does not make it raise:
    with bit 1 clear and bit 2 set, the message "Binary file was corrupt" is
    issued as a [RuntimeWarning], and from a pointer that is not NULL the
    [Extras] object is returned. *)
Theorem from_file_raises_on_bit_1 (filename cname : string) (st : state)
    (p : pointer) (w : Z)
    (sim1 sim2 : Extras.Simulation SimulationFields)
    (mem1 mem2 : Extras.memory Effect) :
  encode_ascii filename = Ok cname ->
  rebx_init (Extras.st_sim st) (Extras.st_mem st) = (p, (sim1, mem1)) ->
  rebx_create_extras_from_binary_with_messages p cname 0 sim1 mem1
  = (w, (sim2, mem2)) ->
  (Z.land w 1 <> 0 ->
   exists e, fst (from_file filename st) = Raise e /\ is_ValueError e = true)
  /\ (Z.land w 1 = 0 -> Z.land w 2 <> 0 ->
      In ("REBOUNDx Error: Binary file was corrupt. Could not read.",
          Extras.RuntimeWarning)
         (Extras.st_warnings (snd (from_file filename st)))
      /\ (p <> NULL ->
          fst (from_file filename st) = Ok (Extras.extras_at mem2 p))).
Proof.
  intros Henc Hinit Hload.
  rewrite (from_file_run _ _ _ _ _ _ _ _ _ Henc Hinit Hload).
  split.
  - intros Hw. apply truthy_true in Hw. rewrite Hw. simpl.
    eexists; split; reflexivity.
  - intros Hw1 Hw2. apply truthy_false in Hw1. rewrite Hw1.
    assert (Hin : In ("REBOUNDx Error: Binary file was corrupt. Could not read.",
                      Extras.RuntimeWarning) (Extras.issued w)).
    { rewrite issued_segments. unfold REBX_BINARY_WARNINGS. cbn [tl filter snd].
      apply truthy_true in Hw2. rewrite Hw2. left; reflexivity. }
    split.
    + destruct (pointer_bool p); simpl; apply in_or_app; now right.
    + intros Hp. unfold pointer_bool.
      apply N.eqb_neq in Hp. rewrite Hp. reflexivity.
Qed.

Lemma filter_snd_length {A B : Type} (g : B -> bool) (l : list (A * B)) :
  List.length (filter (fun entry => g (snd entry)) l)
  = List.length (filter g (map snd l)).
Proof.
  induction l as [| entry l IH]; simpl; [reflexivity |].
  destruct (g (snd entry)); simpl; now rewrite IH.
Qed.

Lemma issued_length (w : Z) :
  List.length (Extras.issued w)
  = List.length (filter (fun value => negb (Z.land w value =? 0))
                   [2; 4; 8; 16; 32; 64]).
Proof.
  rewrite issued_segments, length_map.
  exact (filter_snd_length (fun value => negb (Z.land w value =? 0))
           (tl REBX_BINARY_WARNINGS)).
Qed.

Lemma REBX_BINARY_WARNINGS_codes (value : Z) :
  In value [2; 4; 8; 16; 32; 64] ->
  exists message, In (message, value) REBX_BINARY_WARNINGS.
Proof.
  intros H. unfold REBX_BINARY_WARNINGS. simpl in H.
  destruct H as [<- | [<- | [<- | [<- | [<- | [<- | []]]]]]]; eexists.
  - do 1 right; left; reflexivity.
  - do 2 right; left; reflexivity.
  - do 3 right; left; reflexivity.
  - do 4 right; left; reflexivity.
  - do 5 right; left; reflexivity.
  - do 6 right; left; reflexivity.
Qed.

(** C2, amended.  When bit 1 of the warnings word is clear, the warnings
    [from_file] adds are one [RuntimeWarning] with the table's message for
    each of the values 2, 4, 8, 16, 32, 64 whose bit is set in the word, and
    nothing else: each value has its message in the table, the message is
    issued once if the bit is set and never if it is clear, and there are as
    many warnings as bits set.  After them the structure behind the pointer,
    as the loader left it, is returned when the pointer is not NULL; from a
    NULL pointer the dereference raises [ValueError] and nothing is
    returned. *)
Theorem from_file_warns_and_returns (filename cname : string) (st : state)
    (p : pointer) (w : Z)
    (sim1 sim2 : Extras.Simulation SimulationFields)
    (mem1 mem2 : Extras.memory Effect) :
  encode_ascii filename = Ok cname ->
  rebx_init (Extras.st_sim st) (Extras.st_mem st) = (p, (sim1, mem1)) ->
  rebx_create_extras_from_binary_with_messages p cname 0 sim1 mem1
  = (w, (sim2, mem2)) ->
  Z.land w 1 = 0 ->
  exists new : list (string * Extras.category),
    Extras.st_warnings (snd (from_file filename st))
    = (Extras.st_warnings st ++ new)%list
    /\ (forall value,
           In value [2; 4; 8; 16; 32; 64] ->
           exists message,
             In (message, value) REBX_BINARY_WARNINGS
             /\ Extras.count_message message new
                = if Z.land w value =? 0 then 0%nat else 1%nat)
    /\ (forall x, In x new ->
           exists message value,
             x = (message, Extras.RuntimeWarning)
             /\ In (message, value) REBX_BINARY_WARNINGS
             /\ In value [2; 4; 8; 16; 32; 64]
             /\ Z.land w value <> 0)
    /\ List.length new
       = List.length (filter (fun value => negb (Z.land w value =? 0))
                        [2; 4; 8; 16; 32; 64])
    /\ (p <> NULL ->
        fst (from_file filename st) = Ok (Extras.extras_at mem2 p))
    /\ (p = NULL ->
        fst (from_file filename st) = Raise (ValueError_msg "NULL pointer access")).
Proof.
  intros Henc Hinit Hload Hw1.
  rewrite (from_file_run _ _ _ _ _ _ _ _ _ Henc Hinit Hload).
  apply truthy_false in Hw1. rewrite Hw1.
  exists (Extras.issued w). split; [now destruct (pointer_bool p) |].
  split; [| split; [| split; [| split]]].
  - intros value Hv. destruct (REBX_BINARY_WARNINGS_codes value Hv) as [message Hin].
    exists message. split; [exact Hin |]. now apply issued_count.
  - apply issued_from_table.
  - apply issued_length.
  - intros Hp. unfold pointer_bool. apply N.eqb_neq in Hp. now rewrite Hp.
  - intros ->. reflexivity.
Qed.

(** C8, amended.  The pointer object that the call of [rebx_init] yields is
    never [None], so the guard raises [ValueError(REBX_BINARY_WARNINGS[0])]
    exactly when bit 1 of the warnings word is set, whatever the pointer;
    with a NULL pointer and bit 1 clear the guard is passed, the warnings are
    issued and [from_file] goes on to [extrasp.contents], where ctypes
    refuses the NULL pointer with its own [ValueError], before
    [save_messages] is assigned. *)
Theorem from_file_guard_ignores_null (filename cname : string) (st : state)
    (p : pointer) (w : Z)
    (sim1 sim2 : Extras.Simulation SimulationFields)
    (mem1 mem2 : Extras.memory Effect) :
  encode_ascii filename = Ok cname ->
  rebx_init (Extras.st_sim st) (Extras.st_mem st) = (p, (sim1, mem1)) ->
  rebx_create_extras_from_binary_with_messages p cname 0 sim1 mem1
  = (w, (sim2, mem2)) ->
  (exists o,
      fst (Extras.call_rebx_init rebx_init st) = Ok o
      /\ Extras.is_None o = false /\ Extras.as_pointer o = p)
  /\ (fst (from_file filename st)
      = Raise (ValueError_args (fst (nth 0 REBX_BINARY_WARNINGS (EmptyString, 0)))
                               (snd (nth 0 REBX_BINARY_WARNINGS (EmptyString, 0))))
      <-> Z.land w 1 <> 0)
  /\ (p = NULL -> Z.land w 1 = 0 ->
      from_file filename st
      = Extras.bind (Extras.contents Extras.extras_at (Extras.ObjPointer NULL))
          (fun extras =>
             Extras.bind (Extras.set_save_messages 1) (fun _ => Extras.ret extras))
          (Extras.mkState sim2 mem2 (Extras.st_warnings st ++ Extras.issued w))
      /\ from_file filename st
         = (Raise (ValueError_msg "NULL pointer access"),
            Extras.mkState sim2 mem2 (Extras.st_warnings st ++ Extras.issued w))).
Proof.
  intros Henc Hinit Hload. split; [| split].
  - exists (Extras.ObjPointer p).
    unfold Extras.call_rebx_init, Extras.bind, Extras.foreign, Extras.ret.
    simpl. rewrite Hinit. repeat split.
  - rewrite (from_file_run _ _ _ _ _ _ _ _ _ Henc Hinit Hload).
    rewrite <- truthy_true.
    destruct (Extras.truthy (Z.land w 1)); simpl.
    + split; reflexivity.
    + destruct (pointer_bool p); simpl; split; discriminate.
  - intros Hp Hw1. subst p.
    rewrite (from_file_run _ _ _ _ _ _ _ _ _ Henc Hinit Hload).
    apply truthy_false in Hw1. rewrite Hw1. split; reflexivity.
Qed.

(** C10.  [from_file] assigns [sim.save_messages] only when it returns: if it
    raises, the simulation is the one the native calls left, so
    [save_messages] is what it was before the call as long as the native
    calls do not touch it; if it returns, [save_messages] is 1. *)
Theorem from_file_raise_keeps_save_messages (filename : string) (st : state) :
  (forall e,
      fst (from_file filename st) = Raise e ->
      (Extras.st_sim (snd (from_file filename st))
       = fst (snd (rebx_init (Extras.st_sim st) (Extras.st_mem st)))
       \/ exists cname,
            encode_ascii filename = Ok cname
            /\ Extras.st_sim (snd (from_file filename st))
               = fst (snd (rebx_create_extras_from_binary_with_messages
                             (fst (rebx_init (Extras.st_sim st) (Extras.st_mem st)))
                             cname 0
                             (fst (snd (rebx_init (Extras.st_sim st) (Extras.st_mem st))))
                             (snd (snd (rebx_init (Extras.st_sim st) (Extras.st_mem st)))))))
      /\ ((forall sim mem,
              Extras.save_messages (fst (snd (rebx_init sim mem)))
              = Extras.save_messages sim) ->
          (forall q c w0 sim mem,
              Extras.save_messages
                (fst (snd (rebx_create_extras_from_binary_with_messages q c w0 sim mem)))
              = Extras.save_messages sim) ->
          Extras.save_messages (Extras.st_sim (snd (from_file filename st)))
          = Extras.save_messages (Extras.st_sim st)))
  /\ (forall extras,
         fst (from_file filename st) = Ok extras ->
         Extras.save_messages (Extras.st_sim (snd (from_file filename st))) = 1).
Proof.
  destruct (rebx_init (Extras.st_sim st) (Extras.st_mem st))
    as [p [sim1 mem1]] eqn:Hinit.
  destruct (encode_ascii filename) as [cname | e0] eqn:Henc.
  - destruct (rebx_create_extras_from_binary_with_messages p cname 0 sim1 mem1)
      as [w [sim2 mem2]] eqn:Hload.
    rewrite (from_file_run _ _ _ _ _ _ _ _ _ Henc Hinit Hload).
    assert (Hkeep :
      (forall sim mem,
          Extras.save_messages (fst (snd (rebx_init sim mem)))
          = Extras.save_messages sim) ->
      (forall q c w0 sim mem,
          Extras.save_messages
            (fst (snd (rebx_create_extras_from_binary_with_messages q c w0 sim mem)))
          = Extras.save_messages sim) ->
      Extras.save_messages sim2 = Extras.save_messages (Extras.st_sim st)).
    { intros H1 H2.
      specialize (H1 (Extras.st_sim st) (Extras.st_mem st)). rewrite Hinit in H1.
      specialize (H2 p cname 0 sim1 mem1). rewrite Hload in H2.
      simpl in H1, H2. congruence. }
    split.
    + intros e He. simpl.
      destruct (Extras.truthy (Z.land w 1)); simpl in *.
      * split; [right; exists cname; rewrite Hload; split; reflexivity | exact Hkeep].
      * destruct (pointer_bool p); simpl in *; [discriminate |].
        split; [right; exists cname; rewrite Hload; split; reflexivity | exact Hkeep].
    + intros extras He.
      destruct (Extras.truthy (Z.land w 1)); simpl in *; [discriminate |].
      destruct (pointer_bool p); simpl in *; [reflexivity | discriminate].
  - rewrite (from_file_encode_fails _ _ _ Henc). rewrite Hinit. simpl. split.
    + intros e _. split; [now left |].
      intros H1 _. specialize (H1 (Extras.st_sim st) (Extras.st_mem st)).
      rewrite Hinit in H1. exact H1.
    + intros extras He; discriminate.
Qed.

End FromFile.

Lemma from_file_raises_on_bit_1_witness :
  exists e,
    fst (Extras.from_file (Sample.init_at 1%N) (Sample.load_word 5) "sim.bin" Sample.st0)
    = Raise e
    /\ is_ValueError e = true.
Proof.
  apply (proj1 (from_file_raises_on_bit_1 unit unit
                  (Sample.init_at 1%N) (Sample.load_word 5)
                  "sim.bin" "sim.bin" Sample.st0 1%N 5
                  Sample.sim0 Sample.sim0 Sample.mem0 Sample.mem0
                  eq_refl eq_refl eq_refl)).
  vm_compute; discriminate.
Defined.

(** C1 as stated fails: the word 2 has bit 2 set, and [from_file] raises
    nothing on it; it returns the object. *)
Lemma from_file_corrupt_bit_returns :
  Z.land 2 2 <> 0
  /\ fst (Extras.from_file (Sample.init_at 1%N) (Sample.load_word 2) "sim.bin" Sample.st0)
     = Ok Sample.extras0
  /\ ~ (exists e,
           fst (Extras.from_file (Sample.init_at 1%N) (Sample.load_word 2)
                  "sim.bin" Sample.st0) = Raise e
           /\ is_ValueError e = true).
Proof.
  split; [vm_compute; discriminate |].
  split; [reflexivity |].
  intros [e [He _]]. vm_compute in He. discriminate He.
Qed.

Lemma from_file_warns_and_returns_witness :
  exists new : list (string * Extras.category),
    Extras.st_warnings
      (snd (Extras.from_file (Sample.init_at 1%N) (Sample.load_word 12)
              "sim.bin" Sample.st0))
    = (Extras.st_warnings Sample.st0 ++ new)%list
    /\ (forall value,
           In value [2; 4; 8; 16; 32; 64] ->
           exists message,
             In (message, value) REBX_BINARY_WARNINGS
             /\ Extras.count_message message new
                = if Z.land 12 value =? 0 then 0%nat else 1%nat)
    /\ (forall x, In x new ->
           exists message value,
             x = (message, Extras.RuntimeWarning)
             /\ In (message, value) REBX_BINARY_WARNINGS
             /\ In value [2; 4; 8; 16; 32; 64]
             /\ Z.land 12 value <> 0)
    /\ List.length new
       = List.length (filter (fun value => negb (Z.land 12 value =? 0))
                        [2; 4; 8; 16; 32; 64])
    /\ (1%N <> NULL ->
        fst (Extras.from_file (Sample.init_at 1%N) (Sample.load_word 12)
               "sim.bin" Sample.st0)
        = Ok (Extras.extras_at Sample.mem0 1%N))
    /\ (1%N = NULL ->
        fst (Extras.from_file (Sample.init_at 1%N) (Sample.load_word 12)
               "sim.bin" Sample.st0)
        = Raise (ValueError_msg "NULL pointer access")).
Proof.
  apply (from_file_warns_and_returns unit unit
           (Sample.init_at 1%N) (Sample.load_word 12)
           "sim.bin" "sim.bin" Sample.st0 1%N 12
           Sample.sim0 Sample.sim0 Sample.mem0 Sample.mem0
           eq_refl eq_refl eq_refl).
  reflexivity.
Defined.

(** C2 as stated fails: the word 4 has bit 1 clear, and from a NULL pointer
    [from_file] issues the warning of code 4 and then raises at the
    dereference; it returns no object. *)
Lemma from_file_null_pointer_warns_then_raises :
  Z.land 4 1 = 0
  /\ Extras.from_file (Sample.init_at NULL) (Sample.load_word 4) "sim.bin" Sample.st0
     = (Raise (ValueError_msg "NULL pointer access"),
        Extras.mkState Sample.sim0 Sample.mem0
          [("REBOUNDx Warning: Binary file was saved with a different version of REBOUNDx. Binary format might have changed.",
            Extras.RuntimeWarning)])
  /\ ~ (exists extras,
           fst (Extras.from_file (Sample.init_at NULL) (Sample.load_word 4)
                  "sim.bin" Sample.st0) = Ok extras).
Proof.
  split; [reflexivity |]. split; [reflexivity |].
  intros [extras H]. vm_compute in H. discriminate H.
Qed.

Lemma from_file_guard_ignores_null_witness :
  (exists o,
      fst (Extras.call_rebx_init (Sample.init_at NULL) Sample.st0) = Ok o
      /\ Extras.is_None o = false /\ Extras.as_pointer o = NULL)
  /\ Extras.from_file (Sample.init_at NULL) (Sample.load_word 4) "sim.bin" Sample.st0
     = (Raise (ValueError_msg "NULL pointer access"),
        Extras.mkState Sample.sim0 Sample.mem0
          (Extras.st_warnings Sample.st0 ++ Extras.issued 4)).
Proof.
  pose proof (from_file_guard_ignores_null unit unit
                (Sample.init_at NULL) (Sample.load_word 4)
                "sim.bin" "sim.bin" Sample.st0 NULL 4
                Sample.sim0 Sample.sim0 Sample.mem0 Sample.mem0
                eq_refl eq_refl eq_refl) as [Hobj [_ Hnull]].
  split; [exact Hobj |].
  exact (proj2 (Hnull eq_refl eq_refl)).
Defined.

(** C8 as stated fails: from a NULL pointer and the word 0, whose bit 1 is
    clear, [from_file] does raise a [ValueError], the one of the dereference,
    so bit 1 alone does not decide whether one is raised. *)
Lemma from_file_null_pointer_raises :
  Z.land 0 1 = 0
  /\ exists e,
       fst (Extras.from_file (Sample.init_at NULL) (Sample.load_word 0)
              "sim.bin" Sample.st0) = Raise e
       /\ is_ValueError e = true.
Proof.
  split; [reflexivity |].
  exists (ValueError_msg "NULL pointer access"). split; reflexivity.
Qed.

Lemma from_file_raise_keeps_save_messages_witness :
  Extras.save_messages
    (Extras.st_sim
       (snd (Extras.from_file (Sample.init_at 1%N) (Sample.load_word 1)
               "sim.bin" Sample.st0)))
  = Extras.save_messages (Extras.st_sim Sample.st0).
Proof.
  apply (proj2 (proj1 (from_file_raise_keeps_save_messages unit unit
                         (Sample.init_at 1%N) (Sample.load_word 1)
                         "sim.bin" Sample.st0)
                  (ValueError_args
                     "REBOUNDx Error: Cannot read binary file. Check filename and file contents."
                     1)
                  eq_refl)).
  - intros sim mem; reflexivity.
  - intros q c w0 sim mem; reflexivity.
Defined.

(** ** [Extras.get_effect] *)

Section GetEffect.

Variable SimulationFields : Type.
Variable Effect : Type.
Variable rebx_get_effect :
  pointer -> string ->
  Extras.Simulation SimulationFields -> Extras.memory Effect ->
  pointer * (Extras.Simulation SimulationFields * Extras.memory Effect).

(** What the statements after the first would do: when the native lookup
    answers NULL, one [RuntimeWarning] whose message contains the requested
    name and the result [None]; when the answer is not NULL, the [Effect]
    found at that address and no warning. *)
Lemma get_effect_body_null_warns (self : pointer) (name cname : string)
    (st : Extras.state SimulationFields Effect) (ptr : pointer)
    (sim1 : Extras.Simulation SimulationFields) (mem1 : Extras.memory Effect) :
  encode_ascii name = Ok cname ->
  rebx_get_effect self cname (Extras.st_sim st) (Extras.st_mem st)
  = (ptr, (sim1, mem1)) ->
  (ptr = NULL ->
   Extras.get_effect_body rebx_get_effect self name st
   = (Ok None,
      Extras.mkState sim1 mem1
        (Extras.st_warnings st
         ++ [(String.append "Parameter " (String.append name " not found"),
              Extras.RuntimeWarning)])%list))
  /\ (ptr <> NULL ->
      Extras.get_effect_body rebx_get_effect self name st
      = (Ok (Some (Extras.effect_at mem1 ptr)),
         Extras.mkState sim1 mem1 (Extras.st_warnings st))).
Proof.
  intros Henc Hlook.
  unfold Extras.get_effect_body, Extras.bind, Extras.lift, Extras.foreign. simpl.
  rewrite Henc. simpl. rewrite Hlook. simpl. split.
  - intros ->. reflexivity.
  - intros Hp. unfold Extras.contents, pointer_bool.
    apply N.eqb_neq in Hp. rewrite Hp. reflexivity.
Qed.

(** C9.  The code does not get as far as the claim describes: the name
    [Effect] is bound nowhere in the module, so every call of [get_effect]
    raises [NameError] at its first statement, before the name is encoded
    and before the native lookup, whatever that lookup would answer; no
    warning is issued and nothing is returned. *)
Theorem get_effect_raises_NameError (self : pointer) (name : string)
    (st : Extras.state SimulationFields Effect) :
  Extras.get_effect rebx_get_effect self name st = (Raise (NameError "Effect"), st)
  /\ is_ValueError (NameError "Effect") = false.
Proof.
  split; reflexivity.
Qed.

End GetEffect.

(** ** The convenience functions *)

Section Convenience.

Variable SimulationFields : Type.
Variable Effect : Type.
Variable double : Type.
Variable pynumber : Type.
Variable c_double : pynumber -> result double.

Local Abbreviation Sim := (Extras.Simulation SimulationFields).
Local Abbreviation Mem := (Extras.memory Effect).

Variable rebx_rad_calc_beta :
  double -> double -> double -> double -> double -> double -> double ->
  Sim -> Mem -> double * (Sim * Mem).
Variable rebx_rad_calc_particle_radius :
  double -> double -> double -> double -> double -> double -> double ->
  Sim -> Mem -> double * (Sim * Mem).
Variable rebx_gr_hamiltonian : pointer -> Sim -> Mem -> double * (Sim * Mem).
Variable rebx_gr_potential_hamiltonian : pointer -> Sim -> Mem -> double * (Sim * Mem).
Variable rebx_gr_full_hamiltonian : pointer -> Sim -> Mem -> double * (Sim * Mem).
Variable rebx_tides_precession_hamiltonian :
  pointer -> Sim -> Mem -> double * (Sim * Mem).
Variable rebx_central_force_hamiltonian : Sim -> Mem -> double * (Sim * Mem).
Variable rebx_gravitational_harmonics_hamiltonian : Sim -> Mem -> double * (Sim * Mem).

(** The seven [c_double(...)] arguments of a call, left to right. *)
Lemma marshal_seven (f : double -> double -> double -> double -> double ->
                         double -> double -> Sim -> Mem -> double * (Sim * Mem))
    (x1 x2 x3 x4 x5 x6 x7 : pynumber) (a1 a2 a3 a4 a5 a6 a7 : double)
    (st : Extras.state SimulationFields Effect) :
  c_double x1 = Ok a1 -> c_double x2 = Ok a2 -> c_double x3 = Ok a3 ->
  c_double x4 = Ok a4 -> c_double x5 = Ok a5 -> c_double x6 = Ok a6 ->
  c_double x7 = Ok a7 ->
  Extras.bind (Extras.lift _ _ (c_double x1)) (fun b1 =>
  Extras.bind (Extras.lift _ _ (c_double x2)) (fun b2 =>
  Extras.bind (Extras.lift _ _ (c_double x3)) (fun b3 =>
  Extras.bind (Extras.lift _ _ (c_double x4)) (fun b4 =>
  Extras.bind (Extras.lift _ _ (c_double x5)) (fun b5 =>
  Extras.bind (Extras.lift _ _ (c_double x6)) (fun b6 =>
  Extras.bind (Extras.lift _ _ (c_double x7)) (fun b7 =>
  Extras.foreign _ _ (f b1 b2 b3 b4 b5 b6 b7)))))))) st
  = Extras.foreign _ _ (f a1 a2 a3 a4 a5 a6 a7) st.
Proof.
  intros H1 H2 H3 H4 H5 H6 H7.
  unfold Extras.bind, Extras.lift. simpl.
  rewrite H1; simpl. rewrite H2; simpl. rewrite H3; simpl. rewrite H4; simpl.
  rewrite H5; simpl. rewrite H6; simpl. rewrite H7; simpl. reflexivity.
Qed.

(** C7.  Each convenience function returns the double that the native
    function of its name produces on the marshalled arguments, unchanged: the
    two radiation functions on their seven arguments converted with
    [c_double], the Hamiltonian functions on the objects passed by
    reference. *)
Theorem convenience_functions_forward (st : Extras.state SimulationFields Effect) :
  (forall G c source_mass source_luminosity x density Q_pr a1 a2 a3 a4 a5 a6 a7,
      c_double G = Ok a1 -> c_double c = Ok a2 -> c_double source_mass = Ok a3 ->
      c_double source_luminosity = Ok a4 -> c_double x = Ok a5 ->
      c_double density = Ok a6 -> c_double Q_pr = Ok a7 ->
      fst (Extras.rad_calc_beta c_double rebx_rad_calc_beta
             G c source_mass source_luminosity x density Q_pr st)
      = Ok (fst (rebx_rad_calc_beta a1 a2 a3 a4 a5 a6 a7
                   (Extras.st_sim st) (Extras.st_mem st)))
      /\ fst (Extras.rad_calc_particle_radius c_double rebx_rad_calc_particle_radius
                G c source_mass source_luminosity x density Q_pr st)
         = Ok (fst (rebx_rad_calc_particle_radius a1 a2 a3 a4 a5 a6 a7
                      (Extras.st_sim st) (Extras.st_mem st))))
  /\ (forall params,
         fst (Extras.gr_hamiltonian rebx_gr_hamiltonian params st)
         = Ok (fst (rebx_gr_hamiltonian params (Extras.st_sim st) (Extras.st_mem st)))
         /\ fst (Extras.gr_potential_hamiltonian rebx_gr_potential_hamiltonian params st)
            = Ok (fst (rebx_gr_potential_hamiltonian params
                         (Extras.st_sim st) (Extras.st_mem st)))
         /\ fst (Extras.gr_full_hamiltonian rebx_gr_full_hamiltonian params st)
            = Ok (fst (rebx_gr_full_hamiltonian params
                         (Extras.st_sim st) (Extras.st_mem st)))
         /\ fst (Extras.tides_precession_hamiltonian
                   rebx_tides_precession_hamiltonian params st)
            = Ok (fst (rebx_tides_precession_hamiltonian params
                         (Extras.st_sim st) (Extras.st_mem st))))
  /\ fst (Extras.central_force_hamiltonian rebx_central_force_hamiltonian st)
     = Ok (fst (rebx_central_force_hamiltonian (Extras.st_sim st) (Extras.st_mem st)))
  /\ fst (Extras.gravitational_harmonics_hamiltonian
            rebx_gravitational_harmonics_hamiltonian st)
     = Ok (fst (rebx_gravitational_harmonics_hamiltonian
                  (Extras.st_sim st) (Extras.st_mem st))).
Proof.
  split; [| split; [| split]].
  - intros G c source_mass source_luminosity x density Q_pr
      a1 a2 a3 a4 a5 a6 a7 H1 H2 H3 H4 H5 H6 H7.
    unfold Extras.rad_calc_beta, Extras.rad_calc_particle_radius.
    rewrite (marshal_seven rebx_rad_calc_beta _ _ _ _ _ _ _ _ _ _ _ _ _ _ st
               H1 H2 H3 H4 H5 H6 H7).
    rewrite (marshal_seven rebx_rad_calc_particle_radius
               _ _ _ _ _ _ _ _ _ _ _ _ _ _ st H1 H2 H3 H4 H5 H6 H7).
    split; reflexivity.
  - intros params. repeat split.
  - reflexivity.
  - reflexivity.
Qed.

End Convenience.

Lemma convenience_functions_forward_witness :
  fst (Extras.rad_calc_beta Sample.marshal Sample.weigh 1 1 1 1 1 1 1 Sample.st0)
  = Ok 28
  /\ fst (Extras.rad_calc_particle_radius Sample.marshal Sample.weigh
            1 0 0 0 0 0 2 Sample.st0)
     = Ok 15.
Proof.
  pose proof (proj1 (convenience_functions_forward unit unit Z Z Sample.marshal
                       Sample.weigh Sample.weigh
                       (fun _ sim mem => (0, (sim, mem)))
                       (fun _ sim mem => (0, (sim, mem)))
                       (fun _ sim mem => (0, (sim, mem)))
                       (fun _ sim mem => (0, (sim, mem)))
                       (fun sim mem => (0, (sim, mem)))
                       (fun sim mem => (0, (sim, mem)))
                       Sample.st0)) as H.
  split.
  - exact (proj1 (H 1 1 1 1 1 1 1 1 1 1 1 1 1 1
                    eq_refl eq_refl eq_refl eq_refl eq_refl eq_refl eq_refl)).
  - exact (proj2 (H 1 0 0 0 0 0 2 1 0 0 0 0 0 2
                    eq_refl eq_refl eq_refl eq_refl eq_refl eq_refl eq_refl)).
Defined.

(** * Further properties of the module *)

(** ** The [integrator] property, on integers and on its own values *)

Lemma c_int_in_range (z : Z) : - 2 ^ 31 <= z < 2 ^ 31 -> c_int z = z.
Proof.
  intros H. unfold c_int. rewrite Z.mod_small; lia.
Qed.

Lemma c_int_range (z : Z) : - 2 ^ 31 <= c_int z < 2 ^ 31.
Proof.
  unfold c_int. pose proof (Z.mod_pos_bound (z + 2 ^ 31) (2 ^ 32)). lia.
Qed.

Lemma c_int_congruent (z : Z) : c_int z mod 2 ^ 32 = z mod 2 ^ 32.
Proof.
  unfold c_int.
  replace ((z + 2 ^ 31) mod 2 ^ 32 - 2 ^ 31)
    with ((z + 2 ^ 31) mod 2 ^ 32 + (- 2 ^ 31)) by lia.
  rewrite Zplus_mod_idemp_l. f_equal. lia.
Qed.

(** X1.  Assigning to [integrator] the value it reads as changes nothing: a name
    is encoded back to the integer it came from, and an integer that is in no
    entry is stored as it is.  The field holds a C int. *)
Theorem integrator_get_set_roundtrip (self : Extras.t) :
  - 2 ^ 31 <= Extras._integrator self < 2 ^ 31 ->
  Extras.integrator_setter self (Extras.integrator self) = (Ok tt, self).
Proof.
  intros Hrange. destruct self as [p1 p2 p3 p4 p5 p6 p7 i]. simpl in Hrange.
  unfold Extras.integrator, Extras.integrator_in_order, INTEGRATORS.
  cbn [Extras._integrator Extras.integrator_loop].
  destruct (i =? 0) eqn:E0; [apply Z.eqb_eq in E0; subst; reflexivity |].
  destruct (i =? 1) eqn:E1; [apply Z.eqb_eq in E1; subst; reflexivity |].
  destruct (i =? 2) eqn:E2; [apply Z.eqb_eq in E2; subst; reflexivity |].
  destruct (i =? 3) eqn:E3; [apply Z.eqb_eq in E3; subst; reflexivity |].
  destruct (i =? -1) eqn:E4; [apply Z.eqb_eq in E4; subst; reflexivity |].
  unfold Extras.integrator_setter, Extras.set__integrator.
  cbn [Extras._sim Extras._additional_forces Extras._pre_timestep_modifications
       Extras._post_timestep_modifications Extras._registered_params
       Extras._allocated_forces Extras._allocated_operators].
  now rewrite (c_int_in_range i Hrange).
Qed.

Lemma integrator_get_set_roundtrip_witness :
  Extras.integrator_setter (Extras.mk NULL NULL NULL NULL NULL NULL NULL 3)
    (Extras.integrator (Extras.mk NULL NULL NULL NULL NULL NULL NULL 3))
  = (Ok tt, Extras.mk NULL NULL NULL NULL NULL NULL NULL 3)
  /\ Extras.integrator_setter (Extras.mk NULL NULL NULL NULL NULL NULL NULL 42)
       (Extras.integrator (Extras.mk NULL NULL NULL NULL NULL NULL NULL 42))
     = (Ok tt, Extras.mk NULL NULL NULL NULL NULL NULL NULL 42).
Proof.
  split.
  - apply (integrator_get_set_roundtrip
             (Extras.mk NULL NULL NULL NULL NULL NULL NULL 3)).
    simpl; lia.
  - apply (integrator_get_set_roundtrip
             (Extras.mk NULL NULL NULL NULL NULL NULL NULL 42)).
    simpl; lia.
Defined.

(** X2.  Assigning an integer to [integrator] never raises, whatever the integer:
    the field then holds the C int congruent to it modulo 2^32, and the
    property reads as the name of that value when [INTEGRATORS] has one and
    as that value otherwise, so an integer of the C int range that is no
    table value is read back unchanged. *)
Theorem integrator_set_int (self : Extras.t) (v : Z) :
  exists self',
    Extras.integrator_setter self (PyInt v) = (Ok tt, self')
    /\ - 2 ^ 31 <= Extras._integrator self' < 2 ^ 31
    /\ Extras._integrator self' mod 2 ^ 32 = v mod 2 ^ 32
    /\ (forall name,
           In (name, Extras._integrator self') INTEGRATORS ->
           Extras.integrator self' = PyStr name)
    /\ ((forall name, ~ In (name, v) INTEGRATORS) ->
        - 2 ^ 31 <= v < 2 ^ 31 ->
        Extras.integrator self' = PyInt v).
Proof.
  exists (Extras.set__integrator self (c_int v)).
  assert (Hf : Extras._integrator (Extras.set__integrator self (c_int v)) = c_int v)
    by reflexivity.
  unfold Extras.integrator, Extras.integrator_in_order. rewrite Hf.
  split; [reflexivity |]. split; [apply c_int_range |].
  split; [apply c_int_congruent |]. split.
  - intros name Hin.
    apply integrator_loop_found; [apply INTEGRATORS_values_NoDup | exact Hin].
  - intros Hno Hrange. rewrite (c_int_in_range v Hrange).
    now apply integrator_loop_missing.
Qed.

Lemma integrator_set_int_witness :
  exists self',
    Extras.integrator_setter (Extras.mk NULL NULL NULL NULL NULL NULL NULL 0)
      (PyInt (2 ^ 32 + 1)) = (Ok tt, self')
    /\ Extras.integrator self' = PyStr "rk4".
Proof.
  destruct (integrator_set_int (Extras.mk NULL NULL NULL NULL NULL NULL NULL 0)
              (2 ^ 32 + 1)) as [self' [Hset [_ [_ [Hname _]]]]].
  exists self'. split; [exact Hset |].
  apply Hname.
  injection Hset as <-. simpl. right; left; reflexivity.
Defined.

(** X3.  Whatever is assigned to [integrator], only [_integrator] can change: the
    seven pointer fields stay, and when the assignment raises the object is
    as it was; a value that is neither an integer nor a string is accepted
    without any effect. *)
Theorem integrator_setter_frame (self : Extras.t) (value : pyval) :
  let self' := snd (Extras.integrator_setter self value) in
  Extras.set__integrator self' (Extras._integrator self) = self
  /\ (forall e, fst (Extras.integrator_setter self value) = Raise e -> self' = self)
  /\ (value = PyNone \/ value = PyOther ->
      Extras.integrator_setter self value = (Ok tt, self)).
Proof.
  destruct self as [p1 p2 p3 p4 p5 p6 p7 i].
  unfold Extras.integrator_setter. cbv zeta.
  destruct value as [v | s | |];
    [| destruct (dict_mem (lower s) INTEGRATORS);
       [destruct (dict_index INTEGRATORS (lower s)) |] | |];
    cbn [fst snd Extras.set__integrator Extras._integrator Extras._sim
         Extras._additional_forces Extras._pre_timestep_modifications
         Extras._post_timestep_modifications Extras._registered_params
         Extras._allocated_forces Extras._allocated_operators];
    (split; [reflexivity | split]);
    try (intros e0 He; (discriminate He || reflexivity));
    try (intros [H | H]; (discriminate H || reflexivity)).
Qed.

(** ** [force_type] and [operator_type], on names the tables do not have *)

Lemma dict_get_absent (d : dict) (key : string) :
  ~ In key (keys d) -> dict_get d key = None.
Proof.
  induction d as [| [k u] d IH]; simpl; intros Hno; [reflexivity |].
  destruct (String.eqb key k) eqn:E.
  - apply String.eqb_eq in E. exfalso; apply Hno; now left.
  - apply IH. intros H; apply Hno; now right.
Qed.

Lemma dict_get_present (d : dict) (key : string) (v : Z) :
  dict_get d key = Some v -> In (key, v) d.
Proof.
  induction d as [| [k u] d IH]; simpl; intros H; [discriminate |].
  destruct (String.eqb key k) eqn:E.
  - apply String.eqb_eq in E. injection H as <-. subst. now left.
  - right. now apply IH.
Qed.

(** X4.  Assigning to [force_type] or [operator_type] a string of ASCII
    characters whose lowercase form is no key of the table raises [KeyError]
    with the lowercase string (not the [ValueError] of [integrator]), and an
    integer or [None], which have no [lower], raises [AttributeError]; in
    both cases the object is unchanged.  When the assignment of such a string
    succeeds, the integer stored is the one the table gives to its lowercase
    form. *)
Theorem type_setters_reject_unknown (f : Force.t) (o : Operator.t) :
  (forall s,
      all_ascii s = true ->
      (~ In (lower s) (keys REBX_FORCE_TYPE) ->
       Force.force_type_setter f (PyStr s) = (Raise (KeyError (lower s)), f))
      /\ (~ In (lower s) (keys REBX_OPERATOR_TYPE) ->
          Operator.operator_type_setter o (PyStr s) = (Raise (KeyError (lower s)), o))
      /\ (forall f',
             Force.force_type_setter f (PyStr s) = (Ok tt, f') ->
             In (lower s, Force._force_type f') REBX_FORCE_TYPE)
      /\ (forall o',
             Operator.operator_type_setter o (PyStr s) = (Ok tt, o') ->
             In (lower s, Operator._operator_type o') REBX_OPERATOR_TYPE))
  /\ (forall value,
         (exists z, value = PyInt z) \/ value = PyNone ->
         Force.force_type_setter f value = (Raise AttributeError, f)
         /\ Operator.operator_type_setter o value = (Raise AttributeError, o)).
Proof.
  split.
  - intros s _. unfold Force.force_type_setter, Operator.operator_type_setter,
      dict_index.
    split; [| split; [| split]].
    + intros Hno. now rewrite (dict_get_absent _ _ Hno).
    + intros Hno. now rewrite (dict_get_absent _ _ Hno).
    + intros f'. destruct (dict_get REBX_FORCE_TYPE (lower s)) as [v |] eqn:E;
        [| discriminate].
      intros H. injection H as <-. cbn [Force._force_type].
      pose proof (dict_get_present _ _ _ E) as Hin.
      destruct (REBX_FORCE_TYPE_entry _ _ Hin) as (_ & Hv & _).
      now rewrite Hv.
    + intros o'. destruct (dict_get REBX_OPERATOR_TYPE (lower s)) as [v |] eqn:E;
        [| discriminate].
      intros H. injection H as <-. cbn [Operator._operator_type].
      pose proof (dict_get_present _ _ _ E) as Hin.
      destruct (REBX_OPERATOR_TYPE_entry _ _ Hin) as (_ & Hv & _).
      now rewrite Hv.
  - intros value [[z ->] | ->]; split; reflexivity.
Qed.

Lemma type_setters_reject_unknown_witness :
  Force.force_type_setter (Force.mk NULL NULL NULL 1 NULL) (PyStr "Position")
  = (Raise (KeyError "position"), Force.mk NULL NULL NULL 1 NULL)
  /\ Operator.operator_type_setter (Operator.mk NULL NULL NULL 1 NULL) (PyInt 2)
     = (Raise AttributeError, Operator.mk NULL NULL NULL 1 NULL).
Proof.
  pose proof (type_setters_reject_unknown (Force.mk NULL NULL NULL 1 NULL)
                (Operator.mk NULL NULL NULL 1 NULL)) as [Hs Hv].
  split.
  - apply (proj1 (Hs "Position" eq_refl)). simpl. intuition discriminate.
  - apply (proj2 (Hv (PyInt 2) (or_introl (ex_intro _ 2 eq_refl)))).
Defined.

(** ** [Extras.from_file]: which bits count, the order of the warnings, and
    when it returns *)

Lemma land_low_bits (w v : Z) : Z.land 127 v = v -> Z.land (Z.land w 127) v = Z.land w v.
Proof. intros H. now rewrite <- Z.land_assoc, H. Qed.

Lemma REBX_BINARY_WARNINGS_low (entry : string * Z) :
  In entry REBX_BINARY_WARNINGS -> Z.land 127 (snd entry) = snd entry.
Proof.
  simpl; intros H.
  repeat (destruct H as [H | H]; [subst entry; reflexivity |]); contradiction.
Qed.

Lemma issued_low_bits (w : Z) : Extras.issued (Z.land w 127) = Extras.issued w.
Proof.
  unfold Extras.issued. f_equal. apply filter_ext_in. intros entry Hin.
  now rewrite (land_low_bits w _ (REBX_BINARY_WARNINGS_low entry Hin)).
Qed.

Lemma issued_same_low_bits (w w' : Z) :
  Z.land w 127 = Z.land w' 127 ->
  Extras.issued w = Extras.issued w'
  /\ Extras.truthy (Z.land w 1) = Extras.truthy (Z.land w' 1).
Proof.
  intros H. split.
  - now rewrite <- (issued_low_bits w), <- (issued_low_bits w'), H.
  - rewrite <- (land_low_bits w 1 eq_refl), <- (land_low_bits w' 1 eq_refl).
    now rewrite H.
Qed.

Lemma filter_StronglySorted {A : Type} (R : A -> A -> Prop) (c : A -> bool)
    (l : list A) :
  StronglySorted R l -> StronglySorted R (filter c l).
Proof.
  induction 1 as [| a l Hs IH Hall]; simpl; [constructor |].
  destruct (c a); [| exact IH].
  constructor; [exact IH |].
  rewrite Forall_forall in *. intros x Hx. apply filter_In in Hx as [Hx _].
  now apply Hall.
Qed.

Lemma REBX_BINARY_WARNINGS_sorted :
  StronglySorted (fun a b : string * Z => snd a < snd b) REBX_BINARY_WARNINGS.
Proof.
  unfold REBX_BINARY_WARNINGS.
  repeat (constructor; [| repeat (constructor; [simpl; lia |]); constructor]).
  constructor.
Qed.

Section FromFileOutcomes.

Variable SimulationFields : Type.
Variable Effect : Type.
Variable rebx_init :
  Extras.Simulation SimulationFields -> Extras.memory Effect ->
  pointer * (Extras.Simulation SimulationFields * Extras.memory Effect).

Local Abbreviation state := (Extras.state SimulationFields Effect).
Local Abbreviation loader :=
  (pointer -> string -> Z ->
   Extras.Simulation SimulationFields -> Extras.memory Effect ->
   Z * (Extras.Simulation SimulationFields * Extras.memory Effect)).

(** X5.  Only the seven bits of the table count in the warnings word: two native
    loaders that do the same to the simulation and to memory and whose words
    agree on the bits 1 to 64 give the same run of [from_file], whatever the
    other bits are, the sign bit included. *)
Theorem from_file_ignores_other_bits (load load' : loader) :
  (forall q c w0 sim mem,
      snd (load q c w0 sim mem) = snd (load' q c w0 sim mem)
      /\ Z.land (fst (load q c w0 sim mem)) 127
         = Z.land (fst (load' q c w0 sim mem)) 127) ->
  forall (filename : string) (st : state),
    Extras.from_file rebx_init load filename st
    = Extras.from_file rebx_init load' filename st.
Proof.
  intros Hsame filename st.
  destruct (encode_ascii filename) as [cname | e] eqn:Henc.
  - destruct (rebx_init (Extras.st_sim st) (Extras.st_mem st))
      as [p [sim1 mem1]] eqn:Hinit.
    destruct (Hsame p cname 0 sim1 mem1) as [Hst Hw].
    destruct (load p cname 0 sim1 mem1) as [w [sim2 mem2]] eqn:Hload.
    destruct (load' p cname 0 sim1 mem1) as [w' [sim2' mem2']] eqn:Hload'.
    simpl in Hst, Hw. injection Hst as <- <-.
    rewrite (from_file_run _ _ rebx_init load _ _ _ _ _ _ _ _ _ Henc Hinit Hload).
    rewrite (from_file_run _ _ rebx_init load' _ _ _ _ _ _ _ _ _ Henc Hinit Hload').
    destruct (issued_same_low_bits w w' Hw) as [-> ->]. reflexivity.
  - now rewrite !(from_file_encode_fails _ _ rebx_init _ _ _ _ Henc).
Qed.

Variable rebx_create_extras_from_binary_with_messages : loader.

Local Abbreviation from_file :=
  (Extras.from_file rebx_init rebx_create_extras_from_binary_with_messages).

(** X6.  The warnings of one call of [from_file] come in the order of the table,
    by increasing code; each is the message of a code other than 1 whose bit
    is set in the word, so there are at most six and "Cannot read binary
    file" is never among them. *)
Theorem from_file_warnings_in_table_order (filename cname : string) (st : state)
    (p : pointer) (w : Z)
    (sim1 sim2 : Extras.Simulation SimulationFields)
    (mem1 mem2 : Extras.memory Effect) :
  encode_ascii filename = Ok cname ->
  rebx_init (Extras.st_sim st) (Extras.st_mem st) = (p, (sim1, mem1)) ->
  rebx_create_extras_from_binary_with_messages p cname 0 sim1 mem1
  = (w, (sim2, mem2)) ->
  exists entries : list (string * Z),
    Extras.st_warnings (snd (from_file filename st))
    = (Extras.st_warnings st
       ++ map (fun entry => (fst entry, Extras.RuntimeWarning)) entries)%list
    /\ StronglySorted (fun a b => snd a < snd b) entries
    /\ (forall entry, In entry entries ->
           In entry REBX_BINARY_WARNINGS
           /\ snd entry <> 1 /\ Z.land w (snd entry) <> 0)
    /\ (List.length entries <= 6)%nat.
Proof.
  intros Henc Hinit Hload.
  rewrite (from_file_run _ _ _ _ _ _ _ _ _ _ _ _ _ Henc Hinit Hload).
  destruct (Extras.truthy (Z.land w 1)).
  - exists []. simpl. rewrite app_nil_r.
    repeat split; try constructor; try contradiction; lia.
  - exists (filter (fun entry => Extras.truthy (Z.land w (snd entry)))
              (tl REBX_BINARY_WARNINGS)).
    rewrite <- issued_segments. split; [now destruct (pointer_bool p) |].
    split; [| split].
    + apply filter_StronglySorted.
      pose proof REBX_BINARY_WARNINGS_sorted as H. now inversion H.
    + intros entry Hin. apply filter_In in Hin as [Hin Hc].
      apply truthy_true in Hc. split; [now right |]. split; [| exact Hc].
      simpl in Hin.
      repeat (destruct Hin as [Hin | Hin]; [subst entry; simpl; lia |]).
      contradiction.
    + etransitivity; [apply filter_length_le | simpl; lia].
Qed.

(** X7.  [from_file] raises nothing but [ValueError]; a file name with a byte
    above 127 stops it after [rebx_init] has run and before the loader is
    called; and it returns exactly when the name is ASCII, bit 1 of the word
    is clear and the pointer is not NULL, the result being the structure
    behind the pointer with [save_messages] set. *)
Theorem from_file_outcomes (filename : string) (st : state) :
  let r1 := rebx_init (Extras.st_sim st) (Extras.st_mem st) in
  let r2 := rebx_create_extras_from_binary_with_messages
              (fst r1) filename 0 (fst (snd r1)) (snd (snd r1)) in
  (forall e, fst (from_file filename st) = Raise e -> is_ValueError e = true)
  /\ (all_ascii filename = false ->
      from_file filename st
      = (Raise UnicodeError,
         Extras.mkState (fst (snd r1)) (snd (snd r1)) (Extras.st_warnings st)))
  /\ (forall x,
         fst (from_file filename st) = Ok x <->
         all_ascii filename = true /\ Z.land (fst r2) 1 = 0 /\ fst r1 <> NULL
         /\ x = Extras.extras_at (snd (snd r2)) (fst r1)).
Proof.
  cbv zeta.
  destruct (rebx_init (Extras.st_sim st) (Extras.st_mem st))
    as [p [sim1 mem1]] eqn:Hinit. cbn [fst snd].
  destruct (all_ascii filename) eqn:Hascii.
  - assert (Henc : encode_ascii filename = Ok filename)
      by (unfold encode_ascii; now rewrite Hascii).
    destruct (rebx_create_extras_from_binary_with_messages p filename 0 sim1 mem1)
      as [w [sim2 mem2]] eqn:Hload. cbn [fst snd].
    rewrite (from_file_run _ _ _ _ _ _ _ _ _ _ _ _ _ Henc Hinit Hload).
    unfold pointer_bool.
    destruct (Extras.truthy (Z.land w 1)) eqn:Et; cbn [fst].
    + apply truthy_true in Et.
      split; [intros e He; injection He as <-; reflexivity |].
      split; [discriminate |].
      intros x; split; [discriminate | intros (_ & H & _); contradiction].
    + apply truthy_false in Et.
      destruct (N.eqb_spec p NULL) as [Hp | Hp]; cbn [negb fst].
      * split; [intros e He; injection He as <-; reflexivity |].
        split; [discriminate |].
        intros x; split; [discriminate | intros (_ & _ & H & _); contradiction].
      * split; [discriminate |]. split; [discriminate |].
        intros x; split.
        -- intros H; injection H as <-. repeat split; assumption.
        -- intros (_ & _ & _ & ->). reflexivity.
  - assert (Henc : encode_ascii filename = Raise UnicodeError)
      by (unfold encode_ascii; now rewrite Hascii).
    rewrite (from_file_encode_fails _ _ _ _ _ _ _ Henc). rewrite Hinit.
    cbn [fst snd].
    split; [intros e He; injection He as <-; reflexivity |].
    split; [reflexivity |].
    intros x; split; [discriminate | intros (H & _); discriminate].
Qed.

End FromFileOutcomes.

Lemma from_file_ignores_other_bits_witness :
  Extras.from_file (Sample.init_at 1%N) (Sample.load_word 6) "sim.bin" Sample.st0
  = Extras.from_file (Sample.init_at 1%N) (Sample.load_word (6 - 256))
      "sim.bin" Sample.st0.
Proof.
  apply (from_file_ignores_other_bits unit unit (Sample.init_at 1%N)
           (Sample.load_word 6) (Sample.load_word (6 - 256))).
  intros q c w0 sim mem. split; reflexivity.
Defined.

Lemma from_file_warnings_in_table_order_witness :
  exists entries : list (string * Z),
    Extras.st_warnings
      (snd (Extras.from_file (Sample.init_at 1%N) (Sample.load_word 98)
              "sim.bin" Sample.st0))
    = (Extras.st_warnings Sample.st0
       ++ map (fun entry => (fst entry, Extras.RuntimeWarning)) entries)%list
    /\ StronglySorted (fun a b => snd a < snd b) entries
    /\ (forall entry, In entry entries ->
           In entry REBX_BINARY_WARNINGS
           /\ snd entry <> 1 /\ Z.land 98 (snd entry) <> 0)
    /\ (List.length entries <= 6)%nat.
Proof.
  apply (from_file_warnings_in_table_order unit unit
           (Sample.init_at 1%N) (Sample.load_word 98)
           "sim.bin" "sim.bin" Sample.st0 1%N 98
           Sample.sim0 Sample.sim0 Sample.mem0 Sample.mem0
           eq_refl eq_refl eq_refl).
Defined.

Lemma from_file_outcomes_witness :
  exists e,
    fst (Extras.from_file (Sample.init_at 1%N) (Sample.load_word 0)
           (String (ascii_of_N 233) "t.bin") Sample.st0) = Raise e
    /\ is_ValueError e = true.
Proof.
  exists UnicodeError. split; [reflexivity |].
  apply (proj1 (from_file_outcomes unit unit
                  (Sample.init_at 1%N) (Sample.load_word 0)
                  (String (ascii_of_N 233) "t.bin") Sample.st0) UnicodeError).
  reflexivity.
Defined.

(** ** The loop that fills [REBX_CTYPES] and [REBX_C_PARAM_TYPES] *)

Lemma dict_get_set_same (d : dict) (key : string) (v : Z) :
  dict_get (dict_set d key v) key = Some v.
Proof.
  induction d as [| [k u] d IH]; simpl.
  - now rewrite String.eqb_refl.
  - destruct (String.eqb key k) eqn:E; simpl; rewrite E; [reflexivity | exact IH].
Qed.

Lemma dict_get_set_other (d : dict) (key key' : string) (v : Z) :
  key' <> key -> dict_get (dict_set d key v) key' = dict_get d key'.
Proof.
  intros Hne. induction d as [| [k u] d IH]; simpl.
  - apply String.eqb_neq in Hne. now rewrite Hne.
  - destruct (String.eqb key k) eqn:E; simpl.
    + apply String.eqb_eq in E; subst k.
      apply String.eqb_neq in Hne. now rewrite Hne.
    + destruct (String.eqb key' k); [reflexivity | exact IH].
Qed.

Lemma int_dict_get_set_same {A : Type} (d : int_dict A) (key : Z) (v : A) :
  int_dict_get (int_dict_set d key v) key = Some v.
Proof.
  induction d as [| [k u] d IH]; simpl.
  - now rewrite Z.eqb_refl.
  - destruct (key =? k) eqn:E; simpl; rewrite E; [reflexivity | exact IH].
Qed.

Lemma int_dict_get_set_other {A : Type} (d : int_dict A) (key key' : Z) (v : A) :
  key' <> key -> int_dict_get (int_dict_set d key v) key' = int_dict_get d key'.
Proof.
  intros Hne. induction d as [| [k u] d IH]; simpl.
  - apply Z.eqb_neq in Hne. now rewrite Hne.
  - destruct (key =? k) eqn:E; simpl.
    + apply Z.eqb_eq in E; subst k.
      apply Z.eqb_neq in Hne. now rewrite Hne.
    + destruct (key' =? k); [reflexivity | exact IH].
Qed.

Lemma fill_tables_spec (pairs : list (string * option ctype)) :
  NoDup (map fst pairs) ->
  forall (i : Z) (tables : int_dict (option ctype) * dict),
    (forall n name ty,
        nth_error pairs n = Some (name, ty) ->
        dict_get (snd (fill_tables i pairs tables)) name = Some (i + Z.of_nat n)
        /\ int_dict_get (fst (fill_tables i pairs tables)) (i + Z.of_nat n) = Some ty)
    /\ (forall name,
           ~ In name (map fst pairs) ->
           dict_get (snd (fill_tables i pairs tables)) name
           = dict_get (snd tables) name)
    /\ (forall j,
           j < i \/ i + Z.of_nat (List.length pairs) <= j ->
           int_dict_get (fst (fill_tables i pairs tables)) j
           = int_dict_get (fst tables) j).
Proof.
  induction pairs as [| [nm t] rest IH]; intros Hnd i tables.
  - simpl. split; [| split].
    + intros [| n] name ty H; discriminate H.
    + reflexivity.
    + reflexivity.
  - inversion Hnd as [| ? ? Hnm Hnd']; subst.
    cbn [fill_tables fst snd].
    destruct (IH Hnd' (i + 1)
                (int_dict_set (fst tables) i t, dict_set (snd tables) nm i))
      as (Hidx & Hout & Hlow).
    cbn [fst snd] in *. split; [| split].
    + intros [| n] name ty Hn.
      * simpl in Hn. injection Hn as <- <-. rewrite Z.add_0_r. split.
        -- rewrite (Hout nm Hnm). apply dict_get_set_same.
        -- rewrite (Hlow i) by lia. apply int_dict_get_set_same.
      * simpl in Hn. destruct (Hidx n name ty Hn) as [H1 H2].
        replace (i + Z.of_nat (S n)) with (i + 1 + Z.of_nat n) by lia.
        now split.
    + intros name Hno. rewrite Hout.
      * apply dict_get_set_other. intros ->. apply Hno. now left.
      * intros H. apply Hno. now right.
    + intros j Hj. rewrite Hlow.
      * apply int_dict_get_set_other. simpl List.length in Hj. lia.
      * simpl List.length in Hj. lia.
Qed.

(** X8.  The loop numbers the entries of the table in order from 0: when the
    names are pairwise distinct, the name of entry [n] is mapped to [n] and
    [n] to the type of that entry, so looking a name up and then its number
    gives the type paired with the name; a name the table does not have is in
    neither dictionary. *)
Theorem fill_tables_roundtrip (pairs : list (string * option ctype)) :
  NoDup (map fst pairs) ->
  (forall n name ty,
      nth_error pairs n = Some (name, ty) ->
      dict_index (snd (fill_tables 0 pairs ([], []))) name = Ok (Z.of_nat n)
      /\ int_dict_get (fst (fill_tables 0 pairs ([], []))) (Z.of_nat n) = Some ty)
  /\ (forall name,
         ~ In name (map fst pairs) ->
         dict_index (snd (fill_tables 0 pairs ([], []))) name = Raise (KeyError name))
  /\ (forall j,
         j < 0 \/ Z.of_nat (List.length pairs) <= j ->
         int_dict_get (fst (fill_tables 0 pairs ([], []))) j = None).
Proof.
  intros Hnd. destruct (fill_tables_spec pairs Hnd 0 ([], [])) as (Hidx & Hout & Hlow).
  unfold dict_index. split; [| split].
  - intros n name ty Hn. destruct (Hidx n name ty Hn) as [H1 H2].
    simpl in H1, H2. now rewrite H1.
  - intros name Hno. now rewrite (Hout name Hno).
  - intros j Hj. now rewrite (Hlow j).
Qed.

Lemma REBX_C_TO_CTYPES_names_NoDup : NoDup (map fst REBX_C_TO_CTYPES).
Proof. simpl. repeat constructor; simpl; intuition discriminate. Qed.

Lemma fill_tables_roundtrip_witness :
  dict_index REBX_C_PARAM_TYPES "REBX_TYPE_FORCE" = Ok 4
  /\ int_dict_get REBX_CTYPES 4 = Some (Some Force_type)
  /\ dict_index REBX_C_PARAM_TYPES "rebx_type_force" = Raise (KeyError "rebx_type_force").
Proof.
  destruct (fill_tables_roundtrip REBX_C_TO_CTYPES REBX_C_TO_CTYPES_names_NoDup)
    as (Hidx & Hout & _).
  destruct (Hidx 4%nat "REBX_TYPE_FORCE" (Some Force_type) eq_refl) as [H1 H2].
  split; [exact H1 |]. split; [exact H2 |].
  apply Hout. simpl. intuition discriminate.
Defined.

(** ** The methods that call into the native library *)

Section MethodsProperties.

Variable SimulationFields : Type.
Variable Effect : Type.

Local Abbreviation Sim := (Extras.Simulation SimulationFields).
Local Abbreviation Mem := (Extras.memory Effect).
Local Abbreviation state := (Extras.state SimulationFields Effect).
Local Abbreviation call :=
  (pointer -> string -> Sim -> Mem -> pointer * (Sim * Mem)).

Variable process_messages : Extras.M SimulationFields Effect unit.

Local Abbreviation messages := (Methods.self_sim_process_messages process_messages).

Lemma call_then_contents_run {A : Type} (native : call) (view : Mem -> pointer -> A)
    (self : pointer) (name cname : string) (st : state)
    (ptr : pointer) (sim1 : Sim) (mem1 : Mem) :
  encode_ascii name = Ok cname ->
  native self cname (Extras.st_sim st) (Extras.st_mem st) = (ptr, (sim1, mem1)) ->
  Methods.call_then_contents process_messages native view self name st
  = match fst (messages self (Extras.mkState sim1 mem1 (Extras.st_warnings st))) with
    | Ok _ =>
        Extras.contents view (Extras.ObjPointer ptr)
          (snd (messages self (Extras.mkState sim1 mem1 (Extras.st_warnings st))))
    | Raise e =>
        (Raise e, snd (messages self (Extras.mkState sim1 mem1 (Extras.st_warnings st))))
    end.
Proof.
  intros Henc Hnative.
  unfold Methods.call_then_contents, Extras.bind at 1 2 3, Extras.lift,
    Extras.foreign.
  cbn [fst snd]. rewrite Henc. cbn [fst snd]. rewrite Hnative. reflexivity.
Qed.

Variable force_at : Mem -> pointer -> Force.t.
Variable operator_at : Mem -> pointer -> Operator.t.
Variable rebx_load_force : call.
Variable rebx_create_force : call.
Variable rebx_load_operator : call.
Variable rebx_create_operator : call.

(** X9.  [load_force], [create_force], [load_operator] and [create_operator] never
    return [None]: when the native function answers NULL and the messages are
    processed without an error, the dereference raises [ValueError], where
    the body of [get_effect] tests the pointer and warns; an error of the messages is raised instead and
    comes first; otherwise the structure returned is the one at the address,
    read after the messages were processed. *)
Theorem creators_dereference_without_check
    (self : pointer) (name cname : string) (st st2 : state)
    (ptr : pointer) (sim1 : Sim) (mem1 : Mem) (outcome : result unit) :
  encode_ascii name = Ok cname ->
  messages self (Extras.mkState sim1 mem1 (Extras.st_warnings st)) = (outcome, st2) ->
  let expected_force :=
    match outcome with
    | Raise e => (Raise e, st2)
    | Ok _ =>
        if (ptr =? NULL)%N then (Raise (ValueError_msg "NULL pointer access"), st2)
        else (Ok (force_at (Extras.st_mem st2) ptr), st2)
    end in
  let expected_operator :=
    match outcome with
    | Raise e => (Raise e, st2)
    | Ok _ =>
        if (ptr =? NULL)%N then (Raise (ValueError_msg "NULL pointer access"), st2)
        else (Ok (operator_at (Extras.st_mem st2) ptr), st2)
    end in
  (rebx_load_force self cname (Extras.st_sim st) (Extras.st_mem st) = (ptr, (sim1, mem1)) ->
   Methods.load_force process_messages force_at rebx_load_force self name st
   = expected_force)
  /\ (rebx_create_force self cname (Extras.st_sim st) (Extras.st_mem st)
      = (ptr, (sim1, mem1)) ->
      Methods.create_force process_messages force_at rebx_create_force self name st
      = expected_force)
  /\ (rebx_load_operator self cname (Extras.st_sim st) (Extras.st_mem st)
      = (ptr, (sim1, mem1)) ->
      Methods.load_operator process_messages operator_at rebx_load_operator self name st
      = expected_operator)
  /\ (rebx_create_operator self cname (Extras.st_sim st) (Extras.st_mem st)
      = (ptr, (sim1, mem1)) ->
      Methods.create_operator process_messages operator_at rebx_create_operator
        self name st
      = expected_operator).
Proof.
  intros Henc Hmsg. cbv zeta.
  unfold Methods.load_force, Methods.create_force, Methods.load_operator,
    Methods.create_operator.
  repeat split; intros Hnative;
    rewrite (call_then_contents_run _ _ _ _ _ _ _ _ _ Henc Hnative), Hmsg;
    cbn [fst snd]; destruct outcome as [[] | e]; try reflexivity;
    unfold Extras.contents, pointer_bool;
    destruct (ptr =? NULL)%N; reflexivity.
Qed.

End MethodsProperties.

Lemma creators_dereference_without_check_witness :
  Methods.load_force Sample.quiet (fun _ _ => Sample.force0) (Sample.answer_at NULL)
    7%N "gr" Sample.st1
  = (Raise (ValueError_msg "NULL pointer access"), Sample.st1)
  /\ Methods.create_operator Sample.quiet (fun _ _ => Sample.operator0)
       (Sample.answer_at 9%N) 7%N "gr" Sample.st1
     = (Ok Sample.operator0, Sample.st1).
Proof.
  split.
  - apply (proj1 (creators_dereference_without_check unit unit Sample.quiet
                    (fun _ _ => Sample.force0) (fun _ _ => Sample.operator0)
                    (Sample.answer_at NULL) (Sample.answer_at NULL)
                    (Sample.answer_at NULL) (Sample.answer_at NULL)
                    7%N "gr" "gr" Sample.st1 Sample.st1 NULL Sample.sim0 Sample.mem1
                    (Ok tt) eq_refl eq_refl)).
    reflexivity.
  - apply (proj2 (proj2 (proj2
             (creators_dereference_without_check unit unit Sample.quiet
                (fun _ _ => Sample.force0) (fun _ _ => Sample.operator0)
                (Sample.answer_at 9%N) (Sample.answer_at 9%N)
                (Sample.answer_at 9%N) (Sample.answer_at 9%N)
                7%N "gr" "gr" Sample.st1 Sample.st1 9%N Sample.sim0 Sample.mem1
                (Ok tt) eq_refl eq_refl)))).
    reflexivity.
Defined.

Section MethodsArguments.

Variable SimulationFields : Type.
Variable Effect : Type.

Local Abbreviation Sim := (Extras.Simulation SimulationFields).
Local Abbreviation Mem := (Extras.memory Effect).
Local Abbreviation state := (Extras.state SimulationFields Effect).

Variable process_messages : Extras.M SimulationFields Effect unit.
Variable rebx_register_param :
  pointer -> string -> Z -> Sim -> Mem -> unit * (Sim * Mem).

Local Abbreviation messages := (Methods.self_sim_process_messages process_messages).

(** X10.  [register_param] looks the type name up first, and exactly as written:
    a name that is none of the five raises [KeyError] before anything is
    called, the state being untouched; a name of the table sends its position
    in the table, 0 to 4, to the native function, and the messages are
    processed after that call. *)
Theorem register_param_type_lookup (self : pointer) (name param_type : string)
    (st : state) :
  (~ In param_type (map fst REBX_C_TO_CTYPES) ->
   Methods.register_param process_messages rebx_register_param
     self name param_type st
   = (Raise (KeyError param_type), st))
  /\ (forall n ty cname,
         nth_error REBX_C_TO_CTYPES n = Some (param_type, ty) ->
         encode_ascii name = Ok cname ->
         Methods.register_param process_messages rebx_register_param
           self name param_type st
         = messages self
             (snd (Extras.foreign _ _
                     (rebx_register_param self cname (Z.of_nat n)) st))).
Proof.
  destruct (fill_tables_spec REBX_C_TO_CTYPES REBX_C_TO_CTYPES_names_NoDup
              0 ([], [])) as (Hidx & Hout & _).
  unfold Methods.register_param, Extras.bind at 1 2, Extras.lift, dict_index,
    REBX_C_PARAM_TYPES.
  cbn [fst snd]. split.
  - intros Hno. rewrite (Hout param_type Hno). reflexivity.
  - intros n ty cname Hn Henc. destruct (Hidx n param_type ty Hn) as [Hget _].
    rewrite Hget. cbn [fst snd]. rewrite Henc. cbn [fst snd].
    assert (Hc : c_int (0 + Z.of_nat n) = Z.of_nat n).
    { apply c_int_in_range.
      assert (Hlt : (n < List.length REBX_C_TO_CTYPES)%nat)
        by (apply nth_error_Some; rewrite Hn; discriminate).
      simpl in Hlt. lia. }
    unfold Extras.bind, Extras.foreign. cbn [fst snd]. rewrite Hc. reflexivity.
Qed.

Variable double : Type.
Variable pynumber : Type.
Variable c_double : pynumber -> result double.
Variable rebx_add_operator : pointer -> pointer -> Sim -> Mem -> unit * (Sim * Mem).
Variable rebx_add_operator_step :
  pointer -> pointer -> double -> Z -> string -> Sim -> Mem -> unit * (Sim * Mem).

Local Abbreviation add_operator :=
  (Methods.add_operator process_messages c_double rebx_add_operator
     rebx_add_operator_step).

(** X11.  Without a [dt_fraction], [add_operator] uses neither [timing] nor
    [name]: whatever they are, a timing the table does not have and a name
    that is not ASCII included, it calls [rebx_add_operator] and processes
    the messages.  With a [dt_fraction] it takes [timing] as written:
    anything but "pre" and "post" raises [KeyError] before the number is
    converted and before any native call; "pre" sends -1 and "post" sends 1
    to [rebx_add_operator_step], with the converted number and the encoded
    name, and the messages are processed after the call. *)
Theorem add_operator_timing (self operator : pointer) (dt : pynumber)
    (timing name : string) (st : state) :
  (forall timing' name',
      add_operator self operator None timing' name' st
      = messages self
          (snd (Extras.foreign _ _ (rebx_add_operator self operator) st)))
  /\ (~ In timing (keys REBX_TIMING) ->
      add_operator self operator (Some dt) timing name st
      = (Raise (KeyError timing), st))
  /\ (forall v d cname,
         In (timing, v) REBX_TIMING ->
         c_double dt = Ok d ->
         encode_ascii name = Ok cname ->
         (v = -1 \/ v = 1)
         /\ add_operator self operator (Some dt) timing name st
            = messages self
                (snd (Extras.foreign _ _
                        (rebx_add_operator_step self operator d v cname) st))).
Proof.
  split; [intros timing' name'; reflexivity |].
  unfold Methods.add_operator, Extras.bind at 1 2, Extras.lift, dict_index.
  cbn [fst snd]. split.
  - intros Hno. rewrite (dict_get_absent _ _ Hno). reflexivity.
  - intros v d cname Hin Hd Henc.
    assert (Hv : (v = -1 \/ v = 1) /\ dict_get REBX_TIMING timing = Some v
                 /\ c_int v = v).
    { simpl in Hin. destruct Hin as [H | [H | []]]; injection H as <- <-;
        repeat split; auto. }
    destruct Hv as (Hv & Hget & Hc). split; [exact Hv |].
    rewrite Hget, Hd, Henc. unfold Extras.bind, Extras.foreign. cbn [fst snd].
    rewrite Hc. reflexivity.
Qed.

End MethodsArguments.

Lemma register_param_type_lookup_witness :
  Methods.register_param Sample.quiet
    (fun _ _ code sim mem => (tt, (Extras.mkSimulation code tt, mem)))
    7%N "tau" "rebx_type_double" Sample.st1
  = (Raise (KeyError "rebx_type_double"), Sample.st1)
  /\ Methods.register_param Sample.quiet
       (fun _ _ code sim mem => (tt, (Extras.mkSimulation code tt, mem)))
       7%N "tau" "REBX_TYPE_DOUBLE" Sample.st1
     = (Ok tt, Extras.mkState (Extras.mkSimulation 1 tt) Sample.mem1 []).
Proof.
  split.
  - apply (proj1 (register_param_type_lookup unit unit Sample.quiet
                    (fun _ _ code sim mem => (tt, (Extras.mkSimulation code tt, mem)))
                    7%N "tau" "rebx_type_double" Sample.st1)).
    simpl. intuition discriminate.
  - apply (proj2 (register_param_type_lookup unit unit Sample.quiet
                    (fun _ _ code sim mem => (tt, (Extras.mkSimulation code tt, mem)))
                    7%N "tau" "REBX_TYPE_DOUBLE" Sample.st1)
             1%nat (Some c_double_type) "tau" eq_refl eq_refl).
Defined.

Lemma add_operator_timing_witness :
  Methods.add_operator Sample.quiet Sample.marshal
    (fun _ _ sim mem => Sample.count_call sim mem)
    (fun _ _ _ code _ sim mem => (tt, (Extras.mkSimulation code tt, mem)))
    7%N 8%N (Some 2) "Post" "kick" Sample.st1
  = (Raise (KeyError "Post"), Sample.st1)
  /\ Methods.add_operator Sample.quiet Sample.marshal
       (fun _ _ sim mem => Sample.count_call sim mem)
       (fun _ _ _ code _ sim mem => (tt, (Extras.mkSimulation code tt, mem)))
       7%N 8%N (Some 2) "pre" "kick" Sample.st1
     = (Ok tt, Extras.mkState (Extras.mkSimulation (-1) tt) Sample.mem1 [])
  /\ Methods.add_operator Sample.quiet Sample.marshal
       (fun _ _ sim mem => Sample.count_call sim mem)
       (fun _ _ _ code _ sim mem => (tt, (Extras.mkSimulation code tt, mem)))
       7%N 8%N None "Post" (String (ascii_of_N 233) "kick") Sample.st1
     = (Ok tt, Extras.mkState (Extras.mkSimulation 1 tt) Sample.mem1 []).
Proof.
  split; [| split].
  - apply (proj1 (proj2 (add_operator_timing unit unit Sample.quiet Z Z Sample.marshal
                    (fun _ _ sim mem => Sample.count_call sim mem)
                    (fun _ _ _ code _ sim mem => (tt, (Extras.mkSimulation code tt, mem)))
                    7%N 8%N 2 "Post" "kick" Sample.st1))).
    simpl. intuition discriminate.
  - apply (proj2 (proj2 (proj2 (add_operator_timing unit unit Sample.quiet Z Z
                           Sample.marshal
                           (fun _ _ sim mem => Sample.count_call sim mem)
                           (fun _ _ _ code _ sim mem =>
                              (tt, (Extras.mkSimulation code tt, mem)))
                           7%N 8%N 2 "pre" "kick" Sample.st1))
                    (-1) 2 "kick" (or_introl eq_refl) eq_refl eq_refl)).
  - apply (proj1 (add_operator_timing unit unit Sample.quiet Z Z Sample.marshal
                    (fun _ _ sim mem => Sample.count_call sim mem)
                    (fun _ _ _ code _ sim mem => (tt, (Extras.mkSimulation code tt, mem)))
                    7%N 8%N 2 "Post" "kick" Sample.st1)
             "Post" (String (ascii_of_N 233) "kick")).
Defined.

(** ** Names that are not ASCII, and attaching twice *)

Section MethodsNames.

Variable SimulationFields : Type.
Variable Effect : Type.

Local Abbreviation Sim := (Extras.Simulation SimulationFields).
Local Abbreviation Mem := (Extras.memory Effect).
Local Abbreviation state := (Extras.state SimulationFields Effect).
Local Abbreviation call :=
  (pointer -> string -> Sim -> Mem -> pointer * (Sim * Mem)).

Variable process_messages : Extras.M SimulationFields Effect unit.
Variable force_at : Mem -> pointer -> Force.t.
Variable operator_at : Mem -> pointer -> Operator.t.
Variable rebx_load_force : call.
Variable rebx_create_force : call.
Variable rebx_load_operator : call.
Variable rebx_create_operator : call.
Variable rebx_output_binary : pointer -> string -> Sim -> Mem -> unit * (Sim * Mem).

(** X12.  A name with a byte above 127 never reaches the native library: [save],
    [load_force], [create_force], [load_operator] and [create_operator] raise
    the [ValueError] of the encoding and leave the state as it was, no
    message being processed and no warning issued; a name that is ASCII is
    passed to [rebx_output_binary] byte for byte. *)
Theorem non_ascii_name_stops_the_call (self : pointer) (name : string) (st : state) :
  (all_ascii name = false ->
   Methods.save rebx_output_binary self name st = (Raise UnicodeError, st)
   /\ Methods.load_force process_messages force_at rebx_load_force self name st
      = (Raise UnicodeError, st)
   /\ Methods.create_force process_messages force_at rebx_create_force self name st
      = (Raise UnicodeError, st)
   /\ Methods.load_operator process_messages operator_at rebx_load_operator
        self name st
      = (Raise UnicodeError, st)
   /\ Methods.create_operator process_messages operator_at rebx_create_operator
        self name st
      = (Raise UnicodeError, st)
   /\ is_ValueError UnicodeError = true)
  /\ (all_ascii name = true ->
      Methods.save rebx_output_binary self name st
      = Extras.foreign _ _ (rebx_output_binary self name) st).
Proof.
  split; intros Hascii.
  - unfold Methods.save, Methods.load_force,
      Methods.create_force, Methods.load_operator, Methods.create_operator,
      Methods.call_then_contents, Extras.bind, Extras.lift, encode_ascii.
    rewrite Hascii. repeat split.
  - unfold Methods.save, Extras.bind, Extras.lift, encode_ascii.
    rewrite Hascii. reflexivity.
Qed.

Variable rebx_initialize : pointer -> Sim -> Mem -> unit * (Sim * Mem).

Local Abbreviation init := (Methods.__init__ process_messages rebx_initialize).

(** X13.  Creating an [Extras] for a simulation that already refers to one never
    processes messages and never raises: the reference is replaced after the
    native call.  On a simulation without a reference the messages are
    processed first, and the reference is set only if that raises nothing, so
    after an error the next attempt still counts as the first; an attempt
    that succeeded makes every later one safe. *)
Theorem init_processes_messages_once (self : pointer) (st : state) :
  (forall previous,
      init (Some previous) self st
      = (Ok tt, (Some self, snd (Extras.foreign _ _ (rebx_initialize self) st))))
  /\ (forall e,
         fst (init None self st) = Raise e ->
         fst (snd (init None self st)) = None)
  /\ (fst (init None self st) = Ok tt ->
      fst (snd (init None self st)) = Some self
      /\ forall self2 st2,
           init (fst (snd (init None self st))) self2 st2
           = (Ok tt, (Some self2, snd (Extras.foreign _ _ (rebx_initialize self2) st2)))).
Proof.
  unfold Methods.__init__. split; [reflexivity |]. split.
  - intros e He.
    destruct (fst (process_messages
                     (snd (Extras.foreign _ _ (rebx_initialize self) st))));
      [discriminate He | reflexivity].
  - intros He.
    destruct (fst (process_messages
                     (snd (Extras.foreign _ _ (rebx_initialize self) st))));
      [| discriminate He].
    split; reflexivity.
Qed.

End MethodsNames.

Lemma non_ascii_name_stops_the_call_witness :
  Methods.save (fun _ _ sim mem => Sample.count_call sim mem) 7%N
    (String (ascii_of_N 233) "t.bin") Sample.st1
  = (Raise UnicodeError, Sample.st1)
  /\ Methods.save (fun _ _ sim mem => Sample.count_call sim mem) 7%N
       "sim.bin" Sample.st1
     = (Ok tt, Extras.mkState (Extras.mkSimulation 1 tt) Sample.mem1 []).
Proof.
  pose proof (non_ascii_name_stops_the_call unit unit Sample.quiet
                (fun _ _ => Sample.force0) (fun _ _ => Sample.operator0)
                (Sample.answer_at NULL) (Sample.answer_at NULL)
                (Sample.answer_at NULL) (Sample.answer_at NULL)
                (fun _ _ sim mem => Sample.count_call sim mem) 7%N) as H.
  split.
  - exact (proj1 (proj1 (H (String (ascii_of_N 233) "t.bin") Sample.st1) eq_refl)).
  - exact (proj2 (H "sim.bin" Sample.st1) eq_refl).
Defined.

Lemma init_processes_messages_once_witness :
  fst (snd (Methods.__init__ (fun st => (Raise (ValueError_msg "pending"), st))
              (fun _ sim mem => Sample.count_call sim mem) None 7%N Sample.st1))
  = None
  /\ fst (snd (Methods.__init__ Sample.quiet
                 (fun _ sim mem => Sample.count_call sim mem) None 7%N Sample.st1))
     = Some 7%N.
Proof.
  split.
  - apply (proj1 (proj2 (init_processes_messages_once unit unit
                           (fun st => (Raise (ValueError_msg "pending"), st))
                           (fun _ sim mem => Sample.count_call sim mem)
                           7%N Sample.st1))
             (ValueError_msg "pending")).
    reflexivity.
  - apply (proj1 (proj2 (proj2 (init_processes_messages_once unit unit Sample.quiet
                                  (fun _ sim mem => Sample.count_call sim mem)
                                  7%N Sample.st1))
                    eq_refl)).
Defined.
